(** * Eurostat SDK: dataset decoder, response cache and table filters

    A shallow embedding of [src/eurostat/eurostat_sdk.py] (class
    [EurostatAPI]) and of the post-processing of [generate_data] in
    [src/eurostat/api.py], with the properties of the specification that
    hold of them.

    Conventions of the embedding.
    - A Python [dict] is an association list in insertion order (Python
      dictionaries iterate in insertion order); a well-formed dictionary
      has no repeated key ([NoDup (keys d)]).
    - A Python exception is a value of [exn]; a computation that may raise
      has type [result A].
    - Python integers are [Z]; [%] and [//] are [Z.modulo] and [Z.div]
      (both floor, like Python's) guarded by the test for a zero divisor.
    - Python floats are binary64 numbers, Rocq's primitive [float]: the
      subtraction and the comparison of [_load_cache] are the IEEE ones.
    - A Python [str] is a [string]. The two operations that depend on the
      character set, [int] and [str.strip], are modelled on ASCII text; a
      statement that needs more than that says so in a hypothesis
      ([plain_key], [isascii]).
    - The file system, the clock and the network that the cache talks to
      are fields of a [World] threaded through the state-and-exception
      monad [IO].
    - [print] calls are not modelled. *)

From Stdlib Require Import ZArith Floats List String Ascii Bool Lia Permutation.
From stdpp Require Import base gmap strings.
Import ListNotations.

Local Open Scope string_scope.
Local Open Scope list_scope.
Local Open Scope Z_scope.

(* ===================================================================== *)
(** ** Python values, exceptions and primitive operations                *)
(* ===================================================================== *)

(** The exceptions that the modelled code can raise or catch. *)
Inductive exn : Type :=
  | TypeError
  | KeyError (key : string)
  | ValueError
  | ZeroDivisionError
  | IndexError
  | OverflowError
  | JSONDecodeError
  | OSError
  | HTTPError
  | Timeout
  | ConnectionError.

(** [HTTPError], [Timeout] and [ConnectionError] are the exceptions of the
    [requests] transport. *)
Definition is_transport (e : exn) : bool :=
  match e with
  | HTTPError | Timeout | ConnectionError => true
  | _ => false
  end.

Inductive result (A : Type) : Type :=
  | Raise (e : exn)
  | Return (a : A).
Arguments Raise {A} e.
Arguments Return {A} a.

Definition bind {A B : Type} (m : result A) (k : A -> result B) : result B :=
  match m with
  | Raise e => Raise e
  | Return a => k a
  end.

Notation "x <- m ;; k" := (bind m (fun x => k))
  (at level 100, m at next level, right associativity).

(** A Python dictionary with string keys, in insertion order. *)
Definition dict (A : Type) : Type := list (string * A).

Definition keys {A : Type} (d : dict A) : list string := List.map fst d.

Definition values {A : Type} (d : dict A) : list A := List.map snd d.

(** [len(d)] *)
Definition len {A : Type} (l : list A) : Z := Z.of_nat (List.length l).

(** [d.get(k)]: [None] when the key is absent. *)
Fixpoint dict_get {A : Type} (k : string) (d : dict A) : option A :=
  match d with
  | [] => None
  | (k', a) :: d' => if String.eqb k k' then Some a else dict_get k d'
  end.

(** [d[k]]: raises [KeyError] when the key is absent. *)
Definition dict_getitem {A : Type} (d : dict A) (k : string) : result A :=
  match dict_get k d with
  | Some a => Return a
  | None => Raise (KeyError k)
  end.

(** [o[k]] for a member [k] of a JSON object of known shape: the member is
    there ([Some]) or it is not, and then the subscript raises. *)
Definition subscript {A : Type} (k : string) (member : option A) : result A :=
  match member with
  | Some a => Return a
  | None => Raise (KeyError k)
  end.

(** [l[i]] on a list: a negative index counts from the end, an index out
    of range raises [IndexError]. *)
Definition list_getitem {A : Type} (l : list A) (i : Z) : result A :=
  let j := if i <? 0 then i + len l else i in
  if j <? 0 then Raise IndexError
  else match nth_error l (Z.to_nat j) with
       | Some a => Return a
       | None => Raise IndexError
       end.

(** [a % b] and [a // b] on integers. *)
Definition py_mod (a b : Z) : result Z :=
  if b =? 0 then Raise ZeroDivisionError else Return (a mod b).

Definition py_floordiv (a b : Z) : result Z :=
  if b =? 0 then Raise ZeroDivisionError else Return (a / b).

(** *** Whitespace of [str.strip()]

    The ASCII characters that [str.isspace] accepts: the space, the
    characters 9 to 13 and the separators 28 to 31. *)
Definition is_space (c : ascii) : bool :=
  let n := nat_of_ascii c in
  (Nat.eqb n 32 || (Nat.leb 9 n && Nat.leb n 13) || (Nat.leb 28 n && Nat.leb n 31))%bool.

Definition digit_of (c : ascii) : option Z :=
  let n := nat_of_ascii c in
  if (Nat.leb 48 n && Nat.leb n 57)%bool then Some (Z.of_nat (n - 48)) else None.

Fixpoint lstrip (s : list ascii) : list ascii :=
  match s with
  | c :: s' => if is_space c then lstrip s' else s
  | [] => []
  end.

Definition strip (s : list ascii) : list ascii :=
  List.rev (lstrip (List.rev (lstrip s))).

(** *** [int(s)] on a string

    Python's [int] on a [str], base ten. On a string of ASCII characters
    the literal is read as C does: the whitespace that may surround it is
    the space and the characters 9 to 13 (the separators 28 to 31, which
    [str.strip] drops, are no whitespace here); one sign is allowed; then
    come decimal digits, where a single underscore may stand between two
    digits; and a literal of more than 4300 digits is refused (the
    default of [sys.int_max_str_digits], CPython 3.11 and later).
    Anything else raises [ValueError].

    The model covers ASCII strings. On a string with a character outside
    ASCII it never returns an integer, whereas Python accepts the decimal
    digits and the whitespace of other scripts: so a key on which
    [parse_int] gives an integer is ASCII and Python reads the same
    integer from it, and a statement that rests on a [ValueError] assumes
    that its key is ASCII ([plain_key] below). *)
Definition is_c_space (c : ascii) : bool :=
  let n := nat_of_ascii c in
  (Nat.eqb n 32 || (Nat.leb 9 n && Nat.leb n 13))%bool.

Fixpoint skip_spaces (s : list ascii) : list ascii :=
  match s with
  | c :: s' => if is_c_space c then skip_spaces s' else s
  | [] => []
  end.

Definition int_strip (s : list ascii) : list ascii :=
  List.rev (skip_spaces (List.rev (skip_spaces s))).

Definition count_digits (s : list ascii) : Z :=
  Z.of_nat (List.length (List.filter (fun c => match digit_of c with
                                               | Some _ => true
                                               | None => false
                                               end) s)).

Definition MAX_STR_DIGITS : Z := 4300.

(** [after_digit] says that the previous character was a digit: only then
    may an underscore or the end of the literal follow. *)
Fixpoint digits (acc : Z) (after_digit : bool) (s : list ascii) : option Z :=
  match s with
  | [] => if after_digit then Some acc else None
  | c :: s' =>
      match digit_of c with
      | Some d => digits (10 * acc + d) true s'
      | None =>
          if (Ascii.eqb c "_" && after_digit)%bool then digits acc false s' else None
      end
  end.

Definition parse_int (s : string) : option Z :=
  let literal := int_strip (list_ascii_of_string s) in
  if MAX_STR_DIGITS <? count_digits literal then None
  else
    match literal with
    | c :: rest =>
        if Ascii.eqb c "-" then option_map Z.opp (digits 0 false rest)
        else if Ascii.eqb c "+" then digits 0 false rest
        else digits 0 false (c :: rest)
    | [] => None
    end.

Definition int (s : string) : result Z :=
  match parse_int s with
  | Some z => Return z
  | None => Raise ValueError
  end.

(** [s.isascii()]: every character is below 128. *)
Definition is_ascii_char (c : ascii) : bool := Nat.ltb (nat_of_ascii c) 128.

Definition isascii (s : string) : bool :=
  List.forallb is_ascii_char (list_ascii_of_string s).

(* ===================================================================== *)
(** ** The dataset decoder: [EurostatAPI.process_dataset_to_json]        *)
(* ===================================================================== *)

(** The JSON-stat payload, as far as the decoder reads it. Every member
    that the decoder subscripts may be absent; members are taken with the
    types of the format (an axis's [label] is an object from category key
    to label string, [value] is an object from linear index to value). *)
Record Category : Type := { label : option (dict string) }.

Record Axis : Type := { category : option Category }.

Record Dataset (V : Type) : Type := {
  dimension : option (dict Axis);
  value : option (dict V)
}.
Arguments dimension {V} _.
Arguments value {V} _.

(** One decoded data point: the dictionary
    [{'time': .., 'geo': .., 'unit': .., 'value': ..}]. *)
Record Observation (V : Type) : Type := {
  obs_time : string;
  obs_geo : string;
  obs_unit : string;
  obs_value : V
}.
Arguments obs_time {V} _.
Arguments obs_geo {V} _.
Arguments obs_unit {V} _.
Arguments obs_value {V} _.

Section Decoder.
Context {V : Type}.

(** The table [indicator_dfs]: indicator label to the list of its
    records. *)
Definition IndicatorTable : Type := dict (list (Observation V)).

(** [pd.DataFrame(records).to_json(orient='records')]: the text that
    pandas writes for a list of records, taken to be defined on every
    list. It is a parameter of the model: what pandas does to the values
    (it writes a float with ten decimals, and a column that mixes
    integers and floats as floats) is the library's business. *)
Definition Serializer : Type := list (Observation V) -> string.

(** [dataset_json['data']['dimension'][axis]['category']['label']] *)
Definition labels_of (dim : dict Axis) (axis : string) : result (dict string) :=
  a <- dict_getitem dim axis ;;
  c <- subscript "category" (category a) ;;
  subscript "label" (label c).

(** Lines 180-189:
    [if na_item not in indicator_dfs: indicator_dfs[na_item] = []]
    followed by [indicator_dfs[na_item].append(row)]. *)
Fixpoint append_row (na_item : string) (row : Observation V)
    (indicator_dfs : IndicatorTable) : IndicatorTable :=
  match indicator_dfs with
  | [] => [(na_item, [row])]
  | (k, rows) :: rest =>
      if String.eqb na_item k then (k, rows ++ [row]) :: rest
      else (k, rows) :: append_row na_item row rest
  end.

(** Lines 148-177, one iteration up to the two appends: the indicator
    label and the row to append, or [None] when the iteration ends in
    [continue]. The test [time_key in time_labels] and the subscript
    [time_labels[time_key]] are one lookup, [dict_get]. *)
Definition decode_entry (time_labels na_item_labels geo_labels unit_labels : dict string)
    (value_key : string) (v : V) : result (option (string * Observation V)) :=
  idx <- int value_key ;;
  time_pos <- py_mod idx (len time_labels) ;;
  time_key <- list_getitem (keys time_labels) time_pos ;;
  quotient <- py_floordiv idx (len time_labels) ;;
  na_item_pos <- py_mod quotient (len na_item_labels) ;;
  na_item_key <- list_getitem (keys na_item_labels) na_item_pos ;;
  match dict_get time_key time_labels with
  | None => Return None
  | Some time =>
      match dict_get na_item_key na_item_labels with
      | None => Return None
      | Some na_item =>
          geo <- list_getitem (keys geo_labels) 0 ;;
          unit <- list_getitem (keys unit_labels) 0 ;;
          Return (Some (na_item,
                        {| obs_time := time; obs_geo := geo;
                           obs_unit := unit; obs_value := v |}))
      end
  end.

(** The loop [for value_key, value in values.items()] over the state
    [(data, indicator_dfs)]. *)
Fixpoint for_items (time_labels na_item_labels geo_labels unit_labels : dict string)
    (items : dict V) (st : list (Observation V) * IndicatorTable)
    : result (list (Observation V) * IndicatorTable) :=
  match items with
  | [] => Return st
  | (value_key, v) :: items' =>
      r <- decode_entry time_labels na_item_labels geo_labels unit_labels value_key v ;;
      for_items time_labels na_item_labels geo_labels unit_labels items'
        match r with
        | None => st
        | Some (na_item, row) => (fst st ++ [row], append_row na_item row (snd st))
        end
  end.

(** Lines 129-189 and 217-218 of [process_dataset_to_json], where [data]
    is [dataset_json['data']] ([None] is Python's [None], what
    [get_dataset] returns when no dataset is available): the table
    [indicator_dfs] when the loop has ended, or [None] from the branch
    that only prints. *)
Definition indicator_table (data : option (Dataset V)) : result (option IndicatorTable) :=
  match data with
  | None => Raise TypeError
  | Some d =>
      match dimension d with
      | Some dim =>
          time_labels <- labels_of dim "time" ;;
          na_item_labels <- labels_of dim "na_item" ;;
          geo_labels <- labels_of dim "geo" ;;
          unit_labels <- labels_of dim "unit" ;;
          vals <- subscript "value" (value d) ;;
          st <- for_items time_labels na_item_labels geo_labels unit_labels vals ([], []) ;;
          Return (Some (snd st))
      | None => Return None
      end
  end.

(** Lines 192-195: [json_result], with the keys of [indicator_dfs] in the
    same order and, for each indicator, the text of its records. *)
Definition json_result (to_json : Serializer) (indicator_dfs : IndicatorTable) : dict string :=
  List.map (fun entry => (fst entry, to_json (snd entry))) indicator_dfs.

(** [process_dataset_to_json(dataset_json)]: the function returns
    [json_result], or [None] from the branch that only prints.

    The writes under [output_dir] (the directory, the optional
    per-indicator files and [final_output.json]) do not change the value
    returned and are left out: the model is the function on a file system
    that accepts them. *)
Definition process_dataset_to_json (to_json : Serializer) (data : option (Dataset V))
    : result (option (dict string)) :=
  table <- indicator_table data ;;
  Return (option_map (json_result to_json) table).

End Decoder.

(** A payload in the documented shape, from its four label dictionaries
    and its values. *)
Definition axis_of (labels : dict string) : Axis :=
  {| category := Some {| label := Some labels |} |}.

Definition dataset_of {V : Type} (time_labels na_item_labels geo_labels unit_labels : dict string)
    (vals : dict V) : Dataset V :=
  {| dimension := Some [("time", axis_of time_labels); ("na_item", axis_of na_item_labels);
                        ("geo", axis_of geo_labels); ("unit", axis_of unit_labels)];
     value := Some vals |}.

(* ===================================================================== *)
(** ** Table filtering: the post-processing of [generate_data]           *)
(* ===================================================================== *)

Section Filtering.
Context {V : Type}.

(** [x in l] for a list of strings. *)
Definition str_in (x : string) (l : list string) : bool :=
  List.existsb (String.eqb x) l.

(** api.py, lines 139-140:
    [if indicators: processed_dataset = {k: v for k, v in
    processed_dataset.items() if k in indicators}].
    [None] and the empty list are falsy: no filtering. *)
Definition filter_indicators (indicators : option (list string))
    (processed_dataset : dict (list (Observation V))) : dict (list (Observation V)) :=
  match indicators with
  | Some (i :: rest) =>
      List.filter (fun kv => str_in (fst kv) (i :: rest)) processed_dataset
  | _ => processed_dataset
  end.

(** api.py, lines 142-144:
    [if time_range: for key in processed_dataset: processed_dataset[key] =
    [data for data in processed_dataset[key] if data["time"] in time_range]].
    Every key of the dictionary gets its list replaced, in place. *)
Definition filter_time_range (time_range : option (list string))
    (processed_dataset : dict (list (Observation V))) : dict (list (Observation V)) :=
  match time_range with
  | Some (t :: rest) =>
      List.map (fun kv => (fst kv,
                           List.filter (fun data => str_in (obs_time data) (t :: rest)) (snd kv)))
               processed_dataset
  | _ => processed_dataset
  end.

End Filtering.

(* ===================================================================== *)
(** ** The response cache: [get_dataset] and its helpers                 *)
(* ===================================================================== *)

(** A JSON value as Python's [json] module reads it; [JNull] is [None], a
    number without fraction or exponent is an [int], any other number
    (and [NaN], [Infinity]) a [float]. *)
#[local] Set Warnings "-register-all".
Inductive json : Type :=
  | JNull
  | JBool (b : bool)
  | JInt (z : Z)
  | JFloat (f : float)
  | JStr (s : string)
  | JArr (items : list json)
  | JObj (members : list (string * json)).

(** Truth value of a value in [if x:]. *)
Definition truthy (j : json) : bool :=
  match j with
  | JNull => false
  | JBool b => b
  | JInt z => negb (z =? 0)
  | JFloat f => negb (PrimFloat.eqb f PrimFloat.zero)
  | JStr s => negb (String.eqb s "")
  | JArr items => match items with [] => false | _ => true end
  | JObj members => match members with [] => false | _ => true end
  end.

(** The number of digits of [str(z)], the sign apart. *)
Definition decimal_digits (z : Z) : nat :=
  match Z.to_int z with
  | Decimal.Pos d => Decimal.nb_digits d
  | Decimal.Neg d => Decimal.nb_digits d
  end.

(** [json.dump] can write the value: the text of every integer in it has
    at most 4300 digits. The conversion of a longer integer to text
    raises [ValueError] (the default of [sys.int_max_str_digits],
    CPython 3.11 and later). *)
Fixpoint dumpable (j : json) : bool :=
  match j with
  | JInt z => Nat.leb (decimal_digits z) 4300
  | JArr items => List.forallb dumpable items
  | JObj members =>
      List.forallb (fun member => match member with (_, v) => dumpable v end) members
  | _ => true
  end.

(** [j[k]] with a string [k]: only an object can be subscripted so. *)
Definition json_getitem (j : json) (k : string) : result json :=
  match j with
  | JObj members => dict_getitem members k
  | _ => Raise TypeError
  end.

(** [float(z)] for an integer: the nearest binary64 number, ties to
    even; [OverflowError] when it is beyond the range of the format. *)
Definition float_of_int (z : Z) : result float :=
  let f := SF2Prim (binary_normalize prec emax z 0 false) in
  if PrimFloat.is_infinity f then Raise OverflowError else Return f.

(** [now - j] for the float [now]: [j] has to be a number. An [int] is
    converted to a float first ([bool] is a subtype of [int] in Python);
    the difference is the binary64 one. *)
Definition float_sub (now : float) (j : json) : result float :=
  match j with
  | JFloat f => Return (PrimFloat.sub now f)
  | JInt z => f <- float_of_int z ;; Return (PrimFloat.sub now f)
  | JBool b => Return (PrimFloat.sub now (if b then PrimFloat.one else PrimFloat.zero))
  | _ => Raise TypeError
  end.

(** What a path of the file system holds: something that cannot be opened
    (a directory, a file without permission), text that is not JSON, or a
    text that [json.load] reads as the value [j]. *)
Inductive File : Type :=
  | Unreadable
  | Malformed
  | Document (j : json).

(** The outcome of [requests.get] as [_make_request] sees it: the call
    raises, or it returns a response on which [raise_for_status()] raises
    or not ([error_status]: the library raises for an HTTP error status)
    and whose [json()] returns a value or raises ([body = None]). *)
Record Response : Type := {
  error_status : bool;
  body : option json
}.

Inductive Reply : Type :=
  | Failed (e : exn)
  | Responded (r : Response).

Definition Params : Type := option (list (string * option string)).

Record World : Type := {
  files : gmap string File;
  (** paths that [open(path, 'w')] refuses *)
  locked : string -> bool;
  (** the successive readings of [time.time()] and how many were taken *)
  clock : nat -> float;
  clock_reads : nat;
  (** the reply to the n-th request, and the requests sent so far *)
  network : nat -> Reply;
  requests : list (string * Params)
}.

Definition IO (A : Type) : Type := World -> result A * World.

Definition ret {A : Type} (a : A) : IO A := fun w => (Return a, w).

Definition lift {A : Type} (r : result A) : IO A := fun w => (r, w).

Definition io_bind {A B : Type} (m : IO A) (k : A -> IO B) : IO B :=
  fun w =>
    match m w with
    | (Raise e, w') => (Raise e, w')
    | (Return a, w') => k a w'
    end.

Notation "x <~ m ;; k" := (io_bind m (fun x => k))
  (at level 100, m at next level, right associativity).

(** The ways in which the world changes: the clock is read, a document
    is written at a path or a write is broken off there, a request is
    sent. *)
Definition tick (w : World) : World :=
  {| files := files w; locked := locked w; clock := clock w;
     clock_reads := S (clock_reads w);
     network := network w; requests := requests w |}.

Definition store (path : string) (j : json) (w : World) : World :=
  {| files := <[path := Document j]> (files w); locked := locked w;
     clock := clock w; clock_reads := clock_reads w;
     network := network w; requests := requests w |}.

Definition spoil (path : string) (w : World) : World :=
  {| files := <[path := Malformed]> (files w); locked := locked w;
     clock := clock w; clock_reads := clock_reads w;
     network := network w; requests := requests w |}.

Definition send (url : string) (params : Params) (w : World) : World :=
  {| files := files w; locked := locked w; clock := clock w;
     clock_reads := clock_reads w;
     network := network w; requests := requests w ++ [(url, params)] |}.

(** [time.time()] *)
Definition time_time : IO float :=
  fun w => (Return (clock w (clock_reads w)), tick w).

(** [os.path.exists(path)] *)
Definition path_exists (path : string) : IO bool :=
  fun w => (Return (match files w !! path with Some _ => true | None => false end), w).

(** [with open(path, 'r') as f: json.load(f)] *)
Definition read_json (path : string) : IO json :=
  fun w =>
    match files w !! path with
    | None => (Raise OSError, w)
    | Some Unreadable => (Raise OSError, w)
    | Some Malformed => (Raise JSONDecodeError, w)
    | Some (Document j) => (Return j, w)
    end.

(** [with open(path, 'w') as f: json.dump(j, f, indent=2)]. Opening the
    file empties it and [json.dump] writes the text piece by piece, so
    when the conversion of an integer raises, the exception leaves a
    broken text at the path. *)
Definition write_json (path : string) (j : json) : IO unit :=
  fun w =>
    if locked w path then (Raise OSError, w)
    else if dumpable j then (Return tt, store path j w)
    else (Raise ValueError, spoil path w).

(** [requests.get(url, params=params, ...)]: the request is sent and the
    network answers. *)
Definition requests_get (url : string) (params : Params) : IO Reply :=
  fun w => (Return (network w (List.length (requests w))), send url params w).

Definition BASE_URL_JSON : string :=
  "https://ec.europa.eu/eurostat/api/dissemination/statistics/1.0/data/".

Definition BASE_URL_SDMX : string :=
  "https://ec.europa.eu/eurostat/api/dissemination/sdmx/3.0/data/dataflow/".

(** The body of the [try] of [_make_request]:
    [response = requests.get(..); response.raise_for_status();
    return response.json()]. *)
Definition request_attempt (reply : Reply) : result json :=
  match reply with
  | Failed e => Raise e
  | Responded r =>
      if error_status r then Raise HTTPError
      else match body r with
           | Some j => Return j
           | None => Raise JSONDecodeError
           end
  end.

(** [_make_request(url, params)]: the three [except] clauses print and
    fall through to [return None]. *)
Definition _make_request (url : string) (params : Params) : IO json :=
  reply <~ requests_get url params ;;
  match request_attempt reply with
  | Return j => ret j
  | Raise HTTPError => ret JNull
  | Raise Timeout => ret JNull
  | Raise _ => ret JNull
  end.

(** [_cache_response(cache_file, data)] *)
Definition _cache_response (cache_file : string) (data : json) : IO unit :=
  current_time <~ time_time ;;
  write_json cache_file (JObj [("data", data); ("timestamp", JFloat current_time)]).

(** [_load_cache(cache_file, timeout)]. In
    [time.time() - cache_data['timestamp'] < timeout] the clock is read
    before the subscript is evaluated. The timeout is taken as a float:
    the only caller leaves it at its default, 3600. *)
Definition _load_cache (cache_file : string) (timeout : float) : IO json :=
  present <~ path_exists cache_file ;;
  if present : bool then
    cache_data <~ read_json cache_file ;;
    now <~ time_time ;;
    timestamp <~ lift (json_getitem cache_data "timestamp") ;;
    age <~ lift (float_sub now timestamp) ;;
    if PrimFloat.ltb age timeout then lift (json_getitem cache_data "data")
    else ret JNull
  else ret JNull.

(** The default of [_load_cache]'s [timeout], which [get_dataset] uses. *)
Definition DEFAULT_TIMEOUT : float := 3600%float.

(** Lines 95-100 of [get_dataset]: the URL for a format, or [ValueError]. *)
Definition request_url (format_type dataset_id : string) : result string :=
  if String.eqb format_type "json" then Return (BASE_URL_JSON ++ dataset_id)%string
  else if String.eqb format_type "sdmx"
       then Return (BASE_URL_SDMX ++ dataset_id ++ "/1.0")%string
       else Raise ValueError.

(** Lines 95-110 of [get_dataset]: the request, and the store of a truthy
    answer. *)
Definition fetch_dataset (dataset_id : string) (params : Params) (format_type : string)
    (cache : bool) (cache_file : string) : IO json :=
  url <~ lift (request_url format_type dataset_id) ;;
  dataset <~ _make_request url params ;;
  if truthy dataset then
    _ <~ (if cache then _cache_response cache_file dataset else ret tt) ;;
    ret dataset
  else ret JNull.

(** [get_dataset(dataset_id, params, format_type, cache, cache_file)]:
    lines 89-93, then the rest. *)
Definition get_dataset (dataset_id : string) (params : Params) (format_type : string)
    (cache : bool) (cache_file : string) : IO json :=
  cached_data <~ (if cache then _load_cache cache_file DEFAULT_TIMEOUT else ret JNull) ;;
  if (cache && truthy cached_data)%bool then ret cached_data
  else fetch_dataset dataset_id params format_type cache cache_file.

(* ===================================================================== *)
(** ** Specification-side definitions                                    *)
(* ===================================================================== *)

(** The payload passes the dimension check: the [dimension] member and the
    four axes with their label dictionaries are there, and so is [value]. *)
Definition has_shape {V : Type} (d : Dataset V)
    (time_labels na_item_labels geo_labels unit_labels : dict string) (vals : dict V) : Prop :=
  exists dim,
    dimension d = Some dim /\
    labels_of dim "time" = Return time_labels /\
    labels_of dim "na_item" = Return na_item_labels /\
    labels_of dim "geo" = Return geo_labels /\
    labels_of dim "unit" = Return unit_labels /\
    value d = Some vals.

(** The axes that the decoder requires. *)
Definition required_axes : list string := ["time"; "na_item"; "geo"; "unit"].

(** The label of the category at a position of an axis's declared order. *)
Definition label_at (labels : dict string) (pos : Z) : option string :=
  nth_error (values labels) (Z.to_nat pos).

(** The category key at a position of an axis's declared order. *)
Definition key_at (labels : dict string) (pos : Z) : option string :=
  nth_error (keys labels) (Z.to_nat pos).

(** Appending a sequence of (indicator, row) pairs to a table, in order. *)
Definition group {V : Type} (rows : list (string * Observation V))
    (t : dict (list (Observation V))) : dict (list (Observation V)) :=
  fold_left (fun t r => append_row (fst r) (snd r) t) rows t.

(** The rows of a sequence that belong to one indicator, in order. *)
Definition rows_of {V : Type} (indicator : string) (rows : list (string * Observation V))
    : list (Observation V) :=
  List.map snd (List.filter (fun r => String.eqb indicator (fst r)) rows).

(** All the observations of a table. *)
Definition observations {V : Type} (t : dict (list (Observation V))) : list (Observation V) :=
  List.concat (values t).

(** The linear indices of a values mapping, in the order of the mapping. *)
Definition indices {V : Type} (vals : dict V) : list (option Z) :=
  List.map parse_int (keys vals).

(** The three ways in which the [try] of [_make_request] fails. *)
Definition fetch_fails (reply : Reply) : bool :=
  match request_attempt reply with
  | Raise _ => true
  | Return _ => false
  end.

(** A world with one cache file (or none), a network that always gives
    the same reply, and a clock that starts at [t0] and advances by one
    second at every reading. *)
Definition sample_world (f : option File) (reply : Reply) (t0 : float) : World :=
  {| files := match f with Some x => {[ "cache.json" := x ]} | None => ∅ end;
     locked := fun _ => false;
     clock := fun n => PrimFloat.add t0 (SF2Prim (binary_normalize prec emax (Z.of_nat n) 0 false));
     clock_reads := 0;
     network := fun _ => reply;
     requests := [] |}.

(** The scenario of the specification: two years, two indicators, one
    geography and one unit. *)
Definition scenario (vals : dict Z) : Dataset Z :=
  dataset_of [("0", "2020"); ("1", "2021")] [("0", "GDP"); ("1", "CPI")]
             [("0", "IT")] [("0", "EUR")] vals.

Definition time_value (o : Observation Z) : string * Z := (obs_time o, obs_value o).

(** The values of the scenario, the same mapping listed with index 1
    before index 0, and a mapping with a gap at index 3. *)
Definition scenario_values : dict Z := [("0", 100); ("1", 200); ("2", 5); ("3", 7)].

Definition swapped_values : dict Z := [("1", 200); ("0", 100)].

Definition sorted_values : dict Z := [("0", 100); ("1", 200)].


(** A payload whose geo and unit categories have labels that differ from
    their keys, as Eurostat's do. *)
Definition italy_dataset : Dataset Z :=
  dataset_of [("2020", "2020")] [("B1GQ", "Gross domestic product at market prices")]
             [("IT", "Italy")] [("CP_MEUR", "Current prices, million euro")]
             [("0", 100)].

(** A payload without the [dimension] member, and one whose [dimension]
    has no [na_item] axis. *)
Definition no_dimension : Dataset Z := {| dimension := None; value := Some scenario_values |}.

Definition no_indicator_axis : Dataset Z :=
  {| dimension := Some [("time", axis_of [("0", "2020"); ("1", "2021")]);
                        ("geo", axis_of [("0", "IT")]); ("unit", axis_of [("0", "EUR")])];
     value := Some scenario_values |}.

(** Two payloads, a cache entry holding the first, and replies of the
    network. *)
Definition old_payload : json := JObj [("value", JObj [("0", JInt 100)])].

Definition new_payload : json := JObj [("value", JObj [("0", JInt 7)])].

Definition entry_at (storedAt : float) : json :=
  JObj [("data", old_payload); ("timestamp", JFloat storedAt)].

Definition reply_ok : Reply := Responded {| error_status := false; body := Some new_payload |}.

Definition gdp_url : string := (BASE_URL_JSON ++ "nama_10_gdp")%string.

(* ===================================================================== *)
(** ** The other endpoints of [src/eurostat/api.py]                      *)
(* ===================================================================== *)

(** [k in s] for two strings: [k] occurs in [s]. *)
Fixpoint contains_str (k s : string) : bool :=
  (String.prefix k s ||
   match s with
   | EmptyString => false
   | String _ s' => contains_str k s'
   end)%bool.

(** [k in j] for a string [k] and a JSON value: a key of an object, an
    element of an array, a substring of a string; the other values are
    not iterable. *)
Definition py_contains (k : string) (j : json) : result bool :=
  match j with
  | JObj members => Return (List.existsb (fun kv => String.eqb k (fst kv)) members)
  | JArr items =>
      Return (List.existsb (fun x => match x with
                                     | JStr s => String.eqb k s
                                     | _ => false
                                     end) items)
  | JStr s => Return (contains_str k s)
  | _ => Raise TypeError
  end.

(** [dimensions[axis]['category']['label']] *)
Definition category_label (dimensions : json) (axis : string) : result json :=
  a <- json_getitem dimensions axis ;;
  c <- json_getitem a "category" ;;
  json_getitem c "label".

Definition error_object (message : string) : json := JObj [("error", JStr message)].

(** Lines 96-100 of [get_indicators], as a function of
    [dataset['data']]: the labels of the indicator axis, or the error
    object when the payload has no [dimension] or no [na_item] in it. *)
Definition indicators_of (data : json) : result json :=
  has_dimension <- py_contains "dimension" data ;;
  has_na_item <- (if has_dimension : bool
                  then dimensions <- json_getitem data "dimension" ;;
                       py_contains "na_item" dimensions
                  else Return false) ;;
  if has_na_item : bool then
    indicators <- (dimensions <- json_getitem data "dimension" ;;
                   category_label dimensions "na_item") ;;
    Return (JObj [("indicators", indicators)])
  else Return (error_object "Dimensioni non trovate nel dataset").

(** [get_indicators(dataset_id)], api.py lines 83-100. The name [dataset]
    is rebound to the dictionary [{"data": dataset}] before it is tested. *)
Definition get_indicators (dataset_id : string) : IO json :=
  fetched <~ get_dataset dataset_id None "json" false "cache.json" ;;
  let dataset := JObj [("data", fetched)] in
  if negb (truthy dataset) then ret (error_object "Dataset non trovato")
  else
    data <~ lift (json_getitem dataset "data") ;;
    lift (indicators_of data).

(** [dimensions[axis]['category']['label'] if axis in dimensions else {}] *)
Definition axis_options (dimensions : json) (axis : string) : result json :=
  present <- py_contains axis dimensions ;;
  if present : bool then category_label dimensions axis else Return (JObj []).

(** Lines 165-175 of [get_dataset_parameters], as a function of
    [dataset['data']]. *)
Definition parameters_of (data : json) : result json :=
  dimensions <- json_getitem data "dimension" ;;
  geo_options <- axis_options dimensions "geo" ;;
  unit_options <- axis_options dimensions "unit" ;;
  time_options <- axis_options dimensions "time" ;;
  Return (JObj [("geo_options", geo_options); ("unit_options", unit_options);
                ("time_options", time_options)]).

(** [get_dataset_parameters(dataset_id)], api.py lines 153-175: here the
    dataset is tested before it is wrapped. *)
Definition get_dataset_parameters (dataset_id : string) : IO json :=
  fetched <~ get_dataset dataset_id None "json" false "cache.json" ;;
  if negb (truthy fetched) then ret (error_object "Dataset non trovato")
  else
    let dataset := JObj [("data", fetched)] in
    data <~ lift (json_getitem dataset "data") ;;
    lift (parameters_of data).

(** The post-processing of [generate_data], lines 139-144, as a whole. *)
Definition post_process {V : Type} (indicators time_range : option (list string))
    (processed_dataset : dict (list (Observation V))) : dict (list (Observation V)) :=
  filter_time_range time_range (filter_indicators indicators processed_dataset).

(* ===================================================================== *)
(** ** The ticker list: [src/yahoo_finance/utils.py]                     *)
(* ===================================================================== *)

(** [s.split(sep)] for a one-character separator: every occurrence
    splits, so the result has one part more than [s] has separators. *)
Fixpoint split_on (sep : ascii) (s : list ascii) : list (list ascii) :=
  match s with
  | [] => [[]]
  | c :: s' =>
      if Ascii.eqb c sep then [] :: split_on sep s'
      else match split_on sep s' with
           | part :: parts => (c :: part) :: parts
           | [] => [[c]]
           end
  end.

Definition TAB : ascii := ascii_of_nat 9.

(** The dictionary built from one line of the text file. *)
Record CompanyData : Type := {
  ticker : string;
  company_name : string;
  sector : string;
  market_cap : string;
  revenue : string
}.

(** [part.strip()]. As for [int], the model covers ASCII text: Python
    also strips the whitespace characters of other scripts, so a
    statement about the stripped fields assumes that the lines are ASCII
    ([isascii]). *)
Definition stripped (part : list ascii) : string := string_of_list_ascii (strip part).

(** Lines 23-43 of [extract_data_from_file], for one line: the dictionary
    to append, or [None] when the line has fewer than five parts. *)
Definition extract_line (line : string) : option CompanyData :=
  match split_on TAB (list_ascii_of_string line) with
  | p0 :: p1 :: p2 :: p3 :: p4 :: _ =>
      Some {| ticker := stripped p0; company_name := stripped p1; sector := stripped p2;
              market_cap := stripped p3; revenue := stripped p4 |}
  | _ => None
  end.

(** [extract_data_from_file(file_path)], given what
    [open(file_path).readlines()] does: it raises, or it returns the lines
    of the file. Both [except] clauses return the empty list. *)
Definition extract_data_from_file (lines : result (list string)) : list CompanyData :=
  match lines with
  | Raise _ => []
  | Return ls =>
      List.flat_map (fun line => match extract_line line with
                                 | Some company_data => [company_data]
                                 | None => []
                                 end) ls
  end.

(** The dictionary of one element of the ticker list. *)
Record TickerEntry : Type := {
  t_ticker : json;
  t_company_name : json;
  t_sector : json;
  t_market_cap : json
}.

(** [item.get(key, 'N/A')] on an object. *)
Definition get_or_NA (members : list (string * json)) (key : string) : json :=
  match dict_get key members with
  | Some j => j
  | None => JStr "N/A"
  end.

(** The dictionary of lines 256-261, for an item that is an object. *)
Definition entry_of_object (members : list (string * json)) : TickerEntry :=
  {| t_ticker := get_or_NA members "ticker";
     t_company_name := get_or_NA members "company_name";
     t_sector := get_or_NA members "sector";
     t_market_cap := get_or_NA members "market_cap" |}.

(** [for item in data]: the elements of an array, the keys of an object,
    the characters of a string; [None] when the value is not iterable. *)
Definition py_iter (data : json) : option (list json) :=
  match data with
  | JArr items => Some items
  | JObj members => Some (List.map (fun kv => JStr (fst kv)) members)
  | JStr s => Some (List.map (fun c => JStr (String c EmptyString)) (list_ascii_of_string s))
  | _ => None
  end.

(** One step of the comprehension of [get_tickers]: [None] when the step
    raises (the test ['ticker' in item] on a value that is not iterable,
    or [item.get] on a value that is no object), [Some None] when the
    item is skipped, [Some (Some entry)] when it is kept. *)
Definition ticker_entry (item : json) : option (option TickerEntry) :=
  match py_contains "ticker" item with
  | Raise _ => None
  | Return false => Some None
  | Return true =>
      match item with
      | JObj members => Some (Some (entry_of_object members))
      | _ => None
      end
  end.

Fixpoint ticker_entries (items : list json) : option (list TickerEntry) :=
  match items with
  | [] => Some []
  | item :: rest =>
      match ticker_entry item with
      | None => None
      | Some kept =>
          match ticker_entries rest with
          | None => None
          | Some entries =>
              Some (match kept with
                    | Some entry => entry :: entries
                    | None => entries
                    end)
          end
      end
  end.

(** [get_tickers(file_path)], given what [json.load] of the file does: it
    raises, or it returns the document. Every [except] clause returns the
    empty list. *)
Definition get_tickers (loaded : result json) : list TickerEntry :=
  match loaded with
  | Raise _ => []
  | Return data =>
      match py_iter data with
      | None => []
      | Some items =>
          match ticker_entries items with
          | Some entries => entries
          | None => []
          end
      end
  end.

(* ===================================================================== *)
(** ** The indicator descriptions of [src/eurostat/api.py]               *)
(* ===================================================================== *)

(** What an endpoint does: it raises [HTTPException] with a status code,
    it lets another exception through ([Crashed]), or it answers. *)
Inductive api_result (A : Type) : Type :=
  | HTTPException (status_code : Z)
  | Crashed
  | Answer (a : A).
Arguments HTTPException {A} status_code.
Arguments Crashed {A}.
Arguments Answer {A} a.

Definition IT_FILE_PATH : string := "extra_data/params_descriptions/indicators-it.json".

Definition EN_FILE_PATH : string := "extra_data/params_descriptions/indicators-en.json".

(** The [try] of [load_indicators] on a path: [FileNotFoundError] becomes
    status 404, any other exception status 500. *)
Definition load_file (file_path : string) (w : World) : api_result json :=
  match files w !! file_path with
  | None => HTTPException 404
  | Some Unreadable => HTTPException 500
  | Some Malformed => HTTPException 500
  | Some (Document indicators) => Answer indicators
  end.

(** [load_indicators(language)], api.py lines 43-58. *)
Definition load_indicators (language : string) (w : World) : api_result json :=
  if String.eqb language "it" then load_file IT_FILE_PATH w
  else if String.eqb language "en" then load_file EN_FILE_PATH w
  else HTTPException 400.

(** [indicator.get(key)] on an object: [None] when the key is absent. *)
Definition get_or_None (members : list (string * json)) (key : string) : json :=
  match dict_get key members with
  | Some j => j
  | None => JNull
  end.

(** The dictionary of lines 74-78, for an indicator that is an object. *)
Definition description_of (members : list (string * json)) : json :=
  JObj [("id", get_or_None members "indicator_id");
        ("nome", get_or_None members "indicator_name");
        ("descrizione", get_or_None members "indicator_description")].

(** The loop of lines 73-78: [None] when an indicator is no object, on
    which [.get] raises [AttributeError]. *)
Fixpoint descriptions_of (items : list json) : option (list json) :=
  match items with
  | [] => Some []
  | JObj members :: rest =>
      match descriptions_of rest with
      | Some result => Some (description_of members :: result)
      | None => None
      end
  | _ :: _ => None
  end.

(** [get_indicators_descriptions(language)], api.py lines 62-80: the list
    that the function returns. The loop is outside every [try]. *)
Definition get_indicators_descriptions (language : string) (w : World)
    : api_result (list json) :=
  match load_indicators language w with
  | HTTPException status_code => HTTPException status_code
  | Crashed => Crashed
  | Answer indicators =>
      match py_iter indicators with
      | None => Crashed
      | Some items =>
          match descriptions_of items with
          | Some result => Answer result
          | None => Crashed
          end
      end
  end.

(* ===================================================================== *)
(** ** The dispatch of [src/yahoo_finance/yahoo_finance_sdk.py]          *)
(* ===================================================================== *)

(** The methods of [ESGDataFetcher] that [generate_data] registers. *)
Inductive Getter : Type :=
  | get_esg_data
  | get_company_info
  | get_financials
  | get_dividends
  | get_stock_history.

(** The dictionary [getters] of [generate_data], lines 205-211. *)
Definition getters : dict Getter :=
  [("esg_data", get_esg_data);
   ("company_data", get_company_info);
   ("financials_data", get_financials);
   ("dividends_history", get_dividends);
   ("stock_history", get_stock_history)].

(** The strings that the [Literal] of [GenerateDataRequest.data_id]
    admits, line 13 (the field is [Optional]: [None], which is no string,
    is admitted too and is no key of [getters] either). *)
Definition DATA_IDS : list string :=
  ["esg_data"; "company_data"; "financials_data"; "dividends_data"; "stock_history"].

(** [getters[data_id]], line 237, for a string [data_id]: the lookup that
    [generate_data] makes once the fetcher is constructed. *)
Definition dispatch (data_id : string) : result Getter := dict_getitem getters data_id.

(* ===================================================================== *)
(** ** Specification-side definitions for the endpoints and the tickers  *)
(* ===================================================================== *)

(** What a [dimension] object holds for an axis: nothing, or an axis whose
    [category.label] is [labels]. *)
Definition axis_state (dimensions : list (string * json)) (axis : string)
    (labels : option json) : Prop :=
  match labels with
  | None => dict_get axis dimensions = None
  | Some l => category_label (JObj dimensions) axis = Return l
  end.

Definition labels_or_empty (labels : option json) : json :=
  match labels with
  | Some l => l
  | None => JObj []
  end.

(** A key is plain: it is ASCII and has at most 4300 characters, so that
    [int] refuses it only for its syntax. *)
Definition plain_key (k : string) : Prop :=
  isascii k = true /\ (String.length k <= 4300)%nat.

(** [line.split('\t')[n].strip()], the empty string standing for a part
    that the line does not have. *)
Definition part_at (n : nat) (line : string) : string :=
  stripped (List.nth n (split_on TAB (list_ascii_of_string line)) []).

(** The dictionary that a line with five parts or more stands for. *)
Definition company_of_line (line : string) : CompanyData :=
  {| ticker := part_at 0 line; company_name := part_at 1 line; sector := part_at 2 line;
     market_cap := part_at 3 line; revenue := part_at 4 line |}.

(** [sep.join(parts)] *)
Fixpoint join (sep : ascii) (parts : list (list ascii)) : list ascii :=
  match parts with
  | [] => []
  | [part] => part
  | part :: rest => part ++ sep :: join sep rest
  end.

(** The number of tab characters of a line. *)
Definition count_tabs (line : string) : nat :=
  List.count_occ ascii_dec (list_ascii_of_string line) TAB.

(** A field is trimmed: it does not begin or end with a whitespace
    character, and it holds no tab. *)
Definition trimmed (field : string) : Prop :=
  (forall (c : ascii) (rest : list ascii),
      list_ascii_of_string field = c :: rest -> is_space c = false) /\
  (forall (c : ascii) (front : list ascii),
      list_ascii_of_string field = (front ++ [c])%list -> is_space c = false) /\
  ~ In TAB (list_ascii_of_string field).

Definition fields (company_data : CompanyData) : list string :=
  [ticker company_data; company_name company_data; sector company_data;
   market_cap company_data; revenue company_data].

(** An object has the key ['ticker']. *)
Definition has_ticker (members : list (string * json)) : bool :=
  match dict_get "ticker" members with
  | Some _ => true
  | None => false
  end.

(** A JSON value on which [in] raises: [None], a number, a boolean. *)
Definition not_iterable (item : json) : Prop :=
  match item with
  | JNull | JBool _ | JInt _ | JFloat _ => True
  | _ => False
  end.

(* ===================================================================== *)
(** ** Sample inputs                                                      *)
(* ===================================================================== *)

Definition apple_line : string :=
  (" AAPL " ++ String TAB "Apple Inc." ++ String TAB "Technology" ++ String TAB "3T"
   ++ String TAB " 400B" ++ String (ascii_of_nat 10) "")%string.

Definition descriptions_world (f : option File) : World :=
  {| files := match f with Some x => {[ IT_FILE_PATH := x ]} | None => ∅ end;
     locked := fun _ => false;
     clock := fun _ => PrimFloat.zero;
     clock_reads := 0;
     network := fun _ => Failed ConnectionError;
     requests := [] |}.

Definition gdp_indicator : list (string * json) :=
  [("indicator_id", JStr "B1GQ"); ("indicator_name", JStr "PIL")].

Definition apple_object : list (string * json) :=
  [("ticker", JStr "AAPL"); ("sector", JStr "Technology")].

Definition reply_empty_object : Reply :=
  Responded {| error_status := false; body := Some (JObj []) |}.

Definition falsy_entry_at (storedAt : float) : json :=
  JObj [("data", JObj []); ("timestamp", JFloat storedAt)].

Definition locked_world (reply : Reply) (t0 : float) : World :=
  {| files := ∅;
     locked := fun path => String.eqb path "cache.json";
     clock := fun n => PrimFloat.add t0 (SF2Prim (binary_normalize prec emax (Z.of_nat n) 0 false));
     clock_reads := 0;
     network := fun _ => reply;
     requests := [] |}.

(** A dataset with two geographies: the linear index runs over time, then
    indicator, then geo. *)
Definition two_geo_dataset : Dataset Z :=
  dataset_of [("0", "2020"); ("1", "2021")] [("0", "GDP"); ("1", "CPI")]
             [("IT", "Italy"); ("FR", "France")] [("0", "EUR")]
             [("0", 100); ("4", 900)].

Definition stat_payload : json :=
  JObj [("dimension",
         JObj [("na_item",
                JObj [("category", JObj [("label", JObj [("B1GQ", JStr "GDP")])])]);
               ("geo",
                JObj [("category", JObj [("label", JObj [("IT", JStr "Italy")])])])]);
        ("value", JObj [("0", JInt 100)])].

Definition reply_stat : Reply := Responded {| error_status := false; body := Some stat_payload |}.

(* ===================================================================== *)
(** ** Facts about the primitive operations                              *)
(* ===================================================================== *)

Lemma bind_Return_inv {A B : Type} (m : result A) (k : A -> result B) (b : B) :
  bind m k = Return b -> exists a, m = Return a /\ k a = Return b.
Proof.
  destruct m as [e | a]; simpl; intros H; [discriminate | eauto].
Qed.

Lemma bind_Raise_inv {A B : Type} (m : result A) (k : A -> result B) (e : exn) :
  bind m k = Raise e -> m = Raise e \/ exists a, m = Return a /\ k a = Raise e.
Proof.
  destruct m as [e' | a]; simpl; intros H; [left; congruence | right; eauto].
Qed.

Ltac bind_inv H :=
  let a := fresh "a" in
  let Ha := fresh "Ha" in
  apply bind_Return_inv in H; destruct H as (a & Ha & H).

Lemma len_nonneg {A : Type} (l : list A) : 0 <= len l.
Proof. unfold len. lia. Qed.

Lemma len_zero_iff {A : Type} (l : list A) : len l = 0 <-> l = [].
Proof.
  unfold len. destruct l; simpl; split; intros H; try reflexivity; try discriminate; lia.
Qed.

Lemma len_keys {A : Type} (d : dict A) : len (keys d) = len d.
Proof. unfold len, keys. now rewrite List.length_map. Qed.

Lemma py_mod_Return (a b r : Z) :
  py_mod a b = Return r -> b <> 0 /\ r = a mod b.
Proof.
  unfold py_mod. destruct (Z.eqb_spec b 0); intros H; [discriminate |].
  split; [assumption | congruence].
Qed.

Lemma py_floordiv_Return (a b r : Z) :
  py_floordiv a b = Return r -> b <> 0 /\ r = a / b.
Proof.
  unfold py_floordiv. destruct (Z.eqb_spec b 0); intros H; [discriminate |].
  split; [assumption | congruence].
Qed.

Lemma list_getitem_Return {A : Type} (l : list A) (i : Z) (a : A) :
  0 <= i -> list_getitem l i = Return a -> nth_error l (Z.to_nat i) = Some a.
Proof.
  intros Hi. unfold list_getitem. cbv zeta.
  assert (Hf : (i <? 0) = false) by (apply Z.ltb_ge; lia).
  rewrite !Hf.
  destruct (nth_error l (Z.to_nat i)); intros Hg; congruence.
Qed.

Lemma list_getitem_in_range {A : Type} (l : list A) (i : Z) :
  0 <= i < len l -> exists a, list_getitem l i = Return a /\ nth_error l (Z.to_nat i) = Some a.
Proof.
  intros Hi. unfold list_getitem. cbv zeta.
  assert (Hf : (i <? 0) = false) by (apply Z.ltb_ge; lia).
  rewrite !Hf.
  destruct (nth_error l (Z.to_nat i)) as [a |] eqn:E; [eauto |].
  apply nth_error_None in E. unfold len in Hi. lia.
Qed.

Lemma list_getitem_nil {A : Type} (i : Z) : list_getitem (@nil A) i = Raise IndexError.
Proof.
  unfold list_getitem. simpl.
  destruct (i <? 0); destruct (_ <? 0); try reflexivity;
    destruct (Z.to_nat _); reflexivity.
Qed.

Lemma dict_get_key_at {A : Type} (d : dict A) (p : nat) (k : string) :
  nth_error (keys d) p = Some k -> exists a, dict_get k d = Some a.
Proof.
  revert p. induction d as [| [k' a'] d IH]; intros p H.
  - destruct p; discriminate.
  - simpl. destruct (String.eqb_spec k k'); [eauto |].
    destruct p as [| p]; simpl in H; [congruence | eauto].
Qed.

(** In a dictionary, looking up the key found at a position gives the
    value at that position. *)
Lemma dict_get_nth {A : Type} (d : dict A) (p : nat) (k : string) :
  List.NoDup (keys d) -> nth_error (keys d) p = Some k ->
  dict_get k d = nth_error (values d) p.
Proof.
  revert p. induction d as [| [k' a'] d IH]; intros p Hnd H.
  - destruct p; discriminate.
  - simpl in Hnd. inversion Hnd as [| ? ? Hnotin Hnd']; subst.
    destruct p as [| p]; simpl in H |- *.
    + injection H as Hk. subst k'. now rewrite String.eqb_refl.
    + destruct (String.eqb_spec k k') as [-> | Hne].
      * exfalso. apply Hnotin. eapply nth_error_In; eassumption.
      * eauto.
Qed.

Lemma is_c_space_ascii (c : ascii) : is_c_space c = true -> is_ascii_char c = true.
Proof.
  destruct c as [[] [] [] [] [] [] [] []]; vm_compute;
    intros H; first [reflexivity | discriminate H].
Qed.

Lemma digit_of_ascii (c : ascii) (d : Z) : digit_of c = Some d -> is_ascii_char c = true.
Proof.
  destruct c as [[] [] [] [] [] [] [] []]; vm_compute;
    intros H; first [reflexivity | discriminate H].
Qed.

Lemma skip_spaces_ascii (s : list ascii) :
  Forall (fun c => is_ascii_char c = true) (skip_spaces s) ->
  Forall (fun c => is_ascii_char c = true) s.
Proof.
  induction s as [| c s IH]; simpl; [auto |].
  destruct (is_c_space c) eqn:E; [| auto].
  intros H. constructor; [now apply is_c_space_ascii | auto].
Qed.

Lemma digits_ascii (s : list ascii) :
  forall acc b z, digits acc b s = Some z -> Forall (fun c => is_ascii_char c = true) s.
Proof.
  induction s as [| c s IH]; intros acc b z; simpl; [constructor |].
  destruct (digit_of c) as [d |] eqn:E.
  - intros H. constructor; [eapply digit_of_ascii; eassumption | eapply IH; eassumption].
  - destruct (Ascii.eqb_spec c "_") as [-> | Hne]; simpl; [| discriminate].
    destruct b; [| discriminate].
    intros H. constructor; [reflexivity | eapply IH; eassumption].
Qed.

(** A key that [parse_int] reads is ASCII: on such a key the model is
    Python's [int]. *)
Lemma parse_int_isascii (s : string) (i : Z) : parse_int s = Some i -> isascii s = true.
Proof.
  unfold parse_int, isascii, int_strip. intros H.
  apply List.forallb_forall. apply List.Forall_forall.
  apply skip_spaces_ascii. rewrite <- (List.rev_involutive (skip_spaces _)).
  apply List.Forall_rev. apply skip_spaces_ascii.
  rewrite <- (List.rev_involutive (skip_spaces _)). apply List.Forall_rev.
  destruct (MAX_STR_DIGITS <? _); [discriminate |].
  destruct (List.rev (skip_spaces (List.rev (skip_spaces (list_ascii_of_string s)))))
    as [| c rest]; [discriminate |].
  destruct (Ascii.eqb_spec c "-") as [-> | Hminus].
  - destruct (digits 0 false rest) as [z |] eqn:E; [| discriminate].
    constructor; [reflexivity | eapply digits_ascii; eassumption].
  - destruct (Ascii.eqb_spec c "+") as [-> | Hplus].
    + constructor; [reflexivity | eapply digits_ascii; eassumption].
    + eapply digits_ascii; eassumption.
Qed.

(* ===================================================================== *)
(** ** Facts about the decoder                                           *)
(* ===================================================================== *)

Section DecoderFacts.
Context {V : Type}.
Implicit Types (tl nl gl ul : dict string) (vals : dict V).
Implicit Types (row : Observation V) (rows : list (string * Observation V)).
Implicit Types (t : dict (list (Observation V))).

Lemma int_Return (k : string) (i : Z) : int k = Return i <-> parse_int k = Some i.
Proof.
  unfold int. destruct (parse_int k); split; intros H; congruence.
Qed.

Lemma mod_len_range {A : Type} (l : list A) (i : Z) :
  l <> [] -> 0 <= i mod len l < len l.
Proof.
  intros Hl. apply Z.mod_pos_bound.
  pose proof (len_nonneg l) as Hge.
  assert (Hne : len l <> 0) by (rewrite len_zero_iff; exact Hl).
  lia.
Qed.

(** With an integer key and non-empty time and indicator axes, an
    iteration gets as far as the lookup of geo and unit, with the time
    and indicator labels of the keys at the computed positions. *)
Lemma decode_entry_eq tl nl gl ul (k : string) (v : V) (i : Z) :
  parse_int k = Some i -> tl <> [] -> nl <> [] ->
  exists tk time nk na,
    key_at tl (i mod len tl) = Some tk /\ dict_get tk tl = Some time /\
    key_at nl ((i / len tl) mod len nl) = Some nk /\ dict_get nk nl = Some na /\
    decode_entry tl nl gl ul k v =
      (geo <- list_getitem (keys gl) 0 ;;
       unit <- list_getitem (keys ul) 0 ;;
       Return (Some (na, {| obs_time := time; obs_geo := geo;
                            obs_unit := unit; obs_value := v |}))).
Proof.
  intros Hk Htl Hnl.
  destruct (list_getitem_in_range (keys tl) (i mod len tl)) as (tk & Htk & Htk').
  { rewrite len_keys. now apply mod_len_range. }
  destruct (list_getitem_in_range (keys nl) ((i / len tl) mod len nl)) as (nk & Hnk & Hnk').
  { rewrite len_keys. now apply mod_len_range. }
  destruct (dict_get_key_at _ _ _ Htk') as (time & Htime).
  destruct (dict_get_key_at _ _ _ Hnk') as (na & Hna).
  exists tk, time, nk, na. repeat split; try assumption.
  unfold decode_entry, py_mod, py_floordiv.
  apply int_Return in Hk. rewrite Hk. simpl.
  assert (Ht0 : (len tl =? 0) = false) by (apply Z.eqb_neq; rewrite len_zero_iff; assumption).
  assert (Hn0 : (len nl =? 0) = false) by (apply Z.eqb_neq; rewrite len_zero_iff; assumption).
  rewrite Ht0. simpl. rewrite Htk. simpl. rewrite Hn0. simpl. rewrite Hnk. simpl.
  rewrite Htime, Hna. reflexivity.
Qed.

(** What a successful iteration has computed. The [continue] branches are
    never taken: a key read from [keys()] is in the dictionary. *)
Lemma decode_entry_inv tl nl gl ul (k : string) (v : V)
    (r : option (string * Observation V)) :
  decode_entry tl nl gl ul k v = Return r ->
  exists i tk time nk na g u,
    parse_int k = Some i /\ tl <> [] /\ nl <> [] /\
    key_at tl (i mod len tl) = Some tk /\ dict_get tk tl = Some time /\
    key_at nl ((i / len tl) mod len nl) = Some nk /\ dict_get nk nl = Some na /\
    key_at gl 0 = Some g /\ key_at ul 0 = Some u /\
    r = Some (na, {| obs_time := time; obs_geo := g; obs_unit := u; obs_value := v |}).
Proof.
  intros H.
  assert (Hi : exists i, parse_int k = Some i).
  { unfold decode_entry in H. bind_inv H. apply int_Return in Ha. eauto. }
  destruct Hi as (i & Hi).
  assert (Htl : tl <> []).
  { unfold decode_entry in H. bind_inv H. bind_inv H.
    apply py_mod_Return in Ha0 as [Hz _]. now rewrite len_zero_iff in Hz. }
  assert (Hnl : nl <> []).
  { unfold decode_entry in H. do 5 bind_inv H.
    apply py_mod_Return in Ha3 as [Hz _]. now rewrite len_zero_iff in Hz. }
  destruct (decode_entry_eq tl nl gl ul k v i Hi Htl Hnl)
    as (tk & time & nk & na & Htk & Htime & Hnk & Hna & Heq).
  rewrite Heq in H. bind_inv H. bind_inv H.
  apply list_getitem_Return in Ha; [| lia].
  apply list_getitem_Return in Ha0; [| lia].
  exists i, tk, time, nk, na, a, a0. repeat split; try assumption. congruence.
Qed.

Lemma decode_entry_total tl nl gl ul (k : string) (v : V) (i : Z) :
  parse_int k = Some i -> tl <> [] -> nl <> [] -> gl <> [] -> ul <> [] ->
  exists r, decode_entry tl nl gl ul k v = Return (Some r) /\ obs_value (snd r) = v.
Proof.
  intros Hk Htl Hnl Hgl Hul.
  destruct (decode_entry_eq tl nl gl ul k v i Hk Htl Hnl)
    as (tk & time & nk & na & _ & _ & _ & _ & Heq).
  destruct gl as [| [g ?] gl]; [congruence |].
  destruct ul as [| [u ?] ul]; [congruence |].
  rewrite Heq. simpl. eexists. split; reflexivity.
Qed.

(** *** The table built by the loop *)

Lemma dict_get_append_row (indicator na_item : string) row t :
  dict_get indicator (append_row na_item row t) =
    if String.eqb indicator na_item
    then Some (match dict_get indicator t with Some old => old | None => [] end ++ [row])
    else dict_get indicator t.
Proof.
  induction t as [| [k old] t IH]; simpl.
  - destruct (String.eqb_spec indicator na_item); reflexivity.
  - destruct (String.eqb_spec na_item k) as [-> | Hne]; simpl.
    + destruct (String.eqb_spec indicator k); reflexivity.
    + destruct (String.eqb_spec indicator k) as [-> | Hne'].
      * destruct (String.eqb_spec k na_item); [congruence | reflexivity].
      * exact IH.
Qed.

Lemma observations_append_row (na_item : string) row t :
  Permutation (observations (append_row na_item row t)) (observations t ++ [row]).
Proof.
  unfold observations, values.
  induction t as [| [k old] t IH]; simpl.
  - reflexivity.
  - destruct (String.eqb na_item k); simpl.
    + rewrite <- !List.app_assoc. apply Permutation_app_head.
      apply Permutation_app_comm.
    + rewrite <- List.app_assoc. apply Permutation_app_head. exact IH.
Qed.

Lemma group_snoc rows (r : string * Observation V) t :
  group (rows ++ [r]) t = append_row (fst r) (snd r) (group rows t).
Proof. unfold group. now rewrite List.fold_left_app. Qed.

Lemma rows_of_snoc (indicator : string) rows (r : string * Observation V) :
  rows_of indicator (rows ++ [r]) =
    rows_of indicator rows ++ (if String.eqb indicator (fst r) then [snd r] else []).
Proof.
  unfold rows_of. rewrite List.filter_app, List.map_app. simpl.
  destruct (String.eqb indicator (fst r)); reflexivity.
Qed.

(** Each indicator's list is the sequence of its rows, in the order in
    which the rows were appended; an indicator without a row has no
    entry. *)
Lemma dict_get_group (indicator : string) rows :
  dict_get indicator (group rows []) =
    match rows_of indicator rows with
    | [] => None
    | l => Some l
    end.
Proof.
  induction rows as [| r rows IH] using List.rev_ind.
  - reflexivity.
  - rewrite group_snoc, dict_get_append_row, rows_of_snoc, IH.
    destruct (String.eqb indicator (fst r)).
    + destruct (rows_of indicator rows); reflexivity.
    + rewrite List.app_nil_r. reflexivity.
Qed.

Lemma observations_group rows :
  Permutation (observations (group rows [])) (List.map snd rows).
Proof.
  induction rows as [| r rows IH] using List.rev_ind.
  - reflexivity.
  - rewrite group_snoc, List.map_app. simpl.
    rewrite observations_append_row. now apply Permutation_app_tail.
Qed.

(** *** The loop *)

Lemma for_items_inv tl nl gl ul vals (st st' : list (Observation V) * dict (list (Observation V))) :
  for_items tl nl gl ul vals st = Return st' ->
  exists rows,
    Forall2 (fun kv r => decode_entry tl nl gl ul (fst kv) (snd kv) = Return (Some r)) vals rows /\
    st' = (fst st ++ List.map snd rows, group rows (snd st)).
Proof.
  revert st. induction vals as [| [k v] vals IH]; intros st H; simpl in H.
  - exists []. split; [constructor |]. simpl. rewrite List.app_nil_r.
    destruct st; simpl. congruence.
  - bind_inv H.
    destruct (decode_entry_inv _ _ _ _ _ _ _ Ha)
      as (i & tk & time & nk & na & g & u & _ & _ & _ & _ & _ & _ & _ & _ & _ & ->).
    apply IH in H. destruct H as (rows & HF & ->). simpl.
    eexists (_ :: rows). split.
    + constructor; [exact Ha | exact HF].
    + simpl. now rewrite <- List.app_assoc.
Qed.


Lemma table_shape (d : Dataset V) tl nl gl ul vals :
  has_shape d tl nl gl ul vals ->
  indicator_table (Some d) =
    (st <- for_items tl nl gl ul vals ([], []) ;; Return (Some (snd st))).
Proof.
  intros (dim & Hd & Ht & Hn & Hg & Hu & Hv).
  unfold indicator_table. rewrite Hd, Ht, Hn, Hg, Hu, Hv. reflexivity.
Qed.

(** The table of a successful decode: one row per entry of [values], in
    the order of the mapping, grouped by indicator. *)
Lemma table_inv (d : Dataset V) tl nl gl ul vals t :
  has_shape d tl nl gl ul vals ->
  indicator_table (Some d) = Return (Some t) ->
  exists rows,
    Forall2 (fun kv r => decode_entry tl nl gl ul (fst kv) (snd kv) = Return (Some r)) vals rows /\
    t = group rows [].
Proof.
  intros Hs H. rewrite (table_shape _ _ _ _ _ _ Hs) in H.
  bind_inv H. apply for_items_inv in Ha. destruct Ha as (rows & HF & ->).
  exists rows. split; [exact HF |]. simpl in H. congruence.
Qed.

Lemma has_shape_dataset_of tl nl gl ul vals :
  has_shape (dataset_of tl nl gl ul vals) tl nl gl ul vals.
Proof. eexists. repeat split; reflexivity. Qed.

End DecoderFacts.

Section DecoderErrors.
Context {V : Type}.
Implicit Types (tl nl gl ul : dict string) (vals : dict V).

Lemma Forall2_In_left {A B : Type} (R : A -> B -> Prop) (l1 : list A) (l2 : list B) (a : A) :
  Forall2 R l1 l2 -> In a l1 -> exists b, In b l2 /\ R a b.
Proof.
  induction 1 as [| x y l1 l2 HR _ IH]; intros Hin; [destruct Hin |].
  destruct Hin as [-> | Hin].
  - exists y. split; [now left | exact HR].
  - destruct (IH Hin) as (b & Hb & HRb). exists b. split; [now right | exact HRb].
Qed.

Lemma Forall2_length_eq {A B : Type} (R : A -> B -> Prop) (l1 : list A) (l2 : list B) :
  Forall2 R l1 l2 -> length l1 = length l2.
Proof. induction 1; simpl; congruence. Qed.

Lemma In_rows_of (indicator : string) (row : Observation V)
    (rows : list (string * Observation V)) :
  In (indicator, row) rows -> In row (rows_of indicator rows).
Proof.
  intros Hin. unfold rows_of.
  apply (List.in_map snd _ (indicator, row)).
  apply List.filter_In. split; [exact Hin |]. simpl. apply String.eqb_refl.
Qed.

(** The exception of an iteration on an integer key when an axis has no
    category: the time axis is divided by first, then the indicator
    axis, and only then are geo and unit indexed. *)
Lemma decode_entry_errors tl nl gl ul (k : string) (v : V) (i : Z) :
  parse_int k = Some i ->
  (tl = [] -> decode_entry tl nl gl ul k v = Raise ZeroDivisionError) /\
  (tl <> [] -> nl = [] -> decode_entry tl nl gl ul k v = Raise ZeroDivisionError) /\
  (tl <> [] -> nl <> [] -> gl = [] -> decode_entry tl nl gl ul k v = Raise IndexError) /\
  (tl <> [] -> nl <> [] -> gl <> [] -> ul = [] ->
     decode_entry tl nl gl ul k v = Raise IndexError).
Proof.
  intros Hk. pose proof Hk as Hint. apply int_Return in Hint.
  split; [| split; [| split]].
  - intros ->. unfold decode_entry. rewrite Hint. reflexivity.
  - intros Htl ->. unfold decode_entry, py_mod, py_floordiv. rewrite Hint. simpl.
    assert (Ht0 : (len tl =? 0) = false) by (apply Z.eqb_neq; rewrite len_zero_iff; assumption).
    rewrite Ht0. simpl.
    destruct (list_getitem_in_range (keys tl) (i mod len tl)) as (tk & -> & _).
    { rewrite len_keys. now apply mod_len_range. }
    reflexivity.
  - intros Htl Hnl ->.
    destruct (decode_entry_eq tl nl [] ul k v i Hk Htl Hnl)
      as (tk & time & nk & na & _ & _ & _ & _ & ->).
    reflexivity.
  - intros Htl Hnl Hgl ->.
    destruct (decode_entry_eq tl nl gl [] k v i Hk Htl Hnl)
      as (tk & time & nk & na & _ & _ & _ & _ & ->).
    destruct gl as [| [g ?] gl]; [congruence | reflexivity].
Qed.

Lemma for_items_first_raises tl nl gl ul (k : string) (v : V) (rest : dict V)
    (st : list (Observation V) * dict (list (Observation V))) (e : exn) :
  decode_entry tl nl gl ul k v = Raise e ->
  for_items tl nl gl ul ((k, v) :: rest) st = Raise e.
Proof. intros H. simpl. rewrite H. reflexivity. Qed.

Lemma labels_of_absent (dim : dict Axis) (axis : string) :
  dict_get axis dim = None -> labels_of dim axis = Raise (KeyError axis).
Proof. intros H. unfold labels_of, dict_getitem. rewrite H. reflexivity. Qed.

Lemma labels_of_raises (dim : dict Axis) (axis : string) (e : exn) :
  labels_of dim axis = Raise e -> exists key, e = KeyError key.
Proof.
  unfold labels_of, dict_getitem, subscript.
  destruct (dict_get axis dim) as [[[[[l |]] |]] |]; simpl; intros H;
    try discriminate; injection H as <-; eauto.
Qed.

(** Every observation of a decoded table carries, as its geo and unit
    fields, the first category key of the geo and of the unit axis. *)
Lemma observations_carry_first_keys (d : Dataset V) tl nl gl ul vals
    (t : dict (list (Observation V))) (row : Observation V) :
  has_shape d tl nl gl ul vals ->
  indicator_table (Some d) = Return (Some t) ->
  In row (observations t) ->
  key_at gl 0 = Some (obs_geo row) /\ key_at ul 0 = Some (obs_unit row).
Proof.
  intros Hs Hp Hin.
  destruct (table_inv d tl nl gl ul vals t Hs Hp) as (rows & HF & ->).
  apply (Permutation_in _ (observations_group rows)) in Hin.
  apply List.in_map_iff in Hin. destruct Hin as (r & <- & Hr).
  assert (Hsym : Forall2 (fun r kv => decode_entry tl nl gl ul (fst kv) (snd kv) = Return (Some r))
                         rows vals).
  { clear -HF. induction HF; constructor; assumption. }
  destruct (Forall2_In_left _ _ _ _ Hsym Hr) as (kv & _ & Hkv).
  destruct (decode_entry_inv _ _ _ _ _ _ _ Hkv)
    as (i & tk & time & nk & na & g & u & _ & _ & _ & _ & _ & _ & _ & Hg & Hu & Heq).
  injection Heq as ->. simpl. split; assumption.
Qed.

(** *** From the table to the value returned *)

Lemma process_Some_inv (to_json : Serializer) (data : option (Dataset V))
    (returned : dict string) :
  process_dataset_to_json to_json data = Return (Some returned) ->
  exists t, indicator_table data = Return (Some t) /\ returned = json_result to_json t.
Proof.
  unfold process_dataset_to_json. intros H. bind_inv H.
  destruct a as [t |]; simpl in H; [| discriminate].
  exists t. split; [exact Ha | congruence].
Qed.

Lemma process_of_table (to_json : Serializer) (data : option (Dataset V))
    (table : option (dict (list (Observation V)))) :
  indicator_table data = Return table ->
  process_dataset_to_json to_json data = Return (option_map (json_result to_json) table).
Proof. intros H. unfold process_dataset_to_json. rewrite H. reflexivity. Qed.

Lemma process_raises (to_json : Serializer) (data : option (Dataset V)) (e : exn) :
  indicator_table data = Raise e ->
  process_dataset_to_json to_json data = Raise e.
Proof. intros H. unfold process_dataset_to_json. rewrite H. reflexivity. Qed.

Lemma dict_get_json_result (to_json : Serializer) (indicator : string)
    (t : dict (list (Observation V))) :
  dict_get indicator (json_result to_json t) = option_map to_json (dict_get indicator t).
Proof.
  induction t as [| [k rows] t IH]; simpl; [reflexivity |].
  destruct (String.eqb indicator k); [reflexivity | exact IH].
Qed.

Lemma keys_json_result (to_json : Serializer) (t : dict (list (Observation V))) :
  keys (json_result to_json t) = keys t.
Proof. unfold keys, json_result. rewrite List.map_map. reflexivity. Qed.

End DecoderErrors.

(* ===================================================================== *)
(** ** The decoder: the claims of the specification                      *)
(* ===================================================================== *)

(** In the statements below, [records] is the list of dictionaries that
    the function has built for an indicator when the loop ends, and that
    it hands to [pd.DataFrame] (line 194); the value that the function
    returns for the indicator is the text [to_json records]. *)

(** C1. For every key [k] of [values] with integer index [i], the decoder
    gives the observation the label of the time category at position
    [i mod size(time)] and files it under the label of the indicator
    ([na_item]) category at position [(i div size(time)) mod
    size(indicator)] of the axes' declared orders. In the scenario of the
    specification, GDP gets [(2020,100); (2021,200)] and CPI gets
    [(2020,5); (2021,7)]. *)
Theorem C1_time_and_indicator_positions :
  (forall (V : Type) (to_json : list (Observation V) -> string) (d : Dataset V)
          (tl nl gl ul : dict string) (vals : dict V)
          (returned : dict string) (k : string) (v : V) (i : Z),
      has_shape d tl nl gl ul vals ->
      List.NoDup (keys tl) -> List.NoDup (keys nl) ->
      process_dataset_to_json to_json (Some d) = Return (Some returned) ->
      In (k, v) vals -> parse_int k = Some i ->
      exists time indicator records row,
        label_at tl (i mod len tl) = Some time /\
        label_at nl ((i / len tl) mod len nl) = Some indicator /\
        (exists t, indicator_table (Some d) = Return (Some t) /\
                   dict_get indicator t = Some records) /\
        dict_get indicator returned = Some (to_json records) /\
        In row records /\ obs_time row = time /\ obs_value row = v)
  /\
  (forall to_json : list (Observation Z) -> string,
      exists gdp cpi,
        indicator_table (Some (scenario scenario_values))
          = Return (Some [("GDP", gdp); ("CPI", cpi)]) /\
        process_dataset_to_json to_json (Some (scenario scenario_values))
          = Return (Some [("GDP", to_json gdp); ("CPI", to_json cpi)]) /\
        List.map time_value gdp = [("2020", 100); ("2021", 200)] /\
        List.map time_value cpi = [("2020", 5); ("2021", 7)]).
Proof.
  split.
  - intros V to_json d tl nl gl ul vals returned k v i Hs Hndt Hndn Hp Hin Hk.
    destruct (process_Some_inv to_json _ _ Hp) as (t & Ht & ->).
    destruct (table_inv d tl nl gl ul vals t Hs Ht) as (rows & HF & Heqt).
    destruct (Forall2_In_left _ _ _ _ HF Hin) as (r & Hr & Hdec). simpl in Hdec.
    destruct (decode_entry_inv _ _ _ _ _ _ _ Hdec)
      as (i' & tk & time & nk & na & g & u & Hk' & _ & _ & Htk & Htime & Hnk & Hna & _ & _ & Heq).
    assert (i' = i) by congruence. subst i'.
    injection Heq as ->.
    pose proof (In_rows_of _ _ _ Hr) as Hrow.
    assert (Hget : dict_get na t = Some (rows_of na rows)).
    { rewrite Heqt, dict_get_group.
      destruct (rows_of na rows) as [| x l]; [destruct Hrow | reflexivity]. }
    exists time, na, (rows_of na rows).
    exists {| obs_time := time; obs_geo := g; obs_unit := u; obs_value := v |}.
    split; [| split; [| split; [| split; [| split; [| split]]]]].
    + unfold label_at. rewrite <- Htime. symmetry. now apply dict_get_nth.
    + unfold label_at. rewrite <- Hna. symmetry. now apply dict_get_nth.
    + exists t. split; assumption.
    + rewrite dict_get_json_result, Hget. reflexivity.
    + exact Hrow.
    + reflexivity.
    + reflexivity.
  - intros to_json. do 2 eexists. split; [reflexivity |]. split; [reflexivity |].
    split; reflexivity.
Qed.

(** C1 at the key ["2"] of the scenario: position 0 of time, position 1 of
    the indicator axis. *)
Lemma C1_witness :
  has_shape (scenario scenario_values)
            [("0", "2020"); ("1", "2021")] [("0", "GDP"); ("1", "CPI")]
            [("0", "IT")] [("0", "EUR")] scenario_values /\
  forall to_json : list (Observation Z) -> string,
  exists time indicator records row,
    label_at [("0", "2020"); ("1", "2021")] (2 mod 2) = Some time /\
    label_at [("0", "GDP"); ("1", "CPI")] ((2 / 2) mod 2) = Some indicator /\
    (exists t, indicator_table (Some (scenario scenario_values)) = Return (Some t) /\
               dict_get indicator t = Some records) /\
    dict_get indicator
      [("GDP", to_json
                 [ {| obs_time := "2020"; obs_geo := "0"; obs_unit := "0"; obs_value := 100 |};
                   {| obs_time := "2021"; obs_geo := "0"; obs_unit := "0"; obs_value := 200 |} ]);
       ("CPI", to_json
                 [ {| obs_time := "2020"; obs_geo := "0"; obs_unit := "0"; obs_value := 5 |};
                   {| obs_time := "2021"; obs_geo := "0"; obs_unit := "0"; obs_value := 7 |} ])]
      = Some (to_json records) /\
    In row records /\ obs_time row = time /\ obs_value row = 5.
Proof.
  split; [apply has_shape_dataset_of |].
  intros to_json.
  apply (proj1 C1_time_and_indicator_positions Z to_json (scenario scenario_values)
           [("0", "2020"); ("1", "2021")] [("0", "GDP"); ("1", "CPI")]
           [("0", "IT")] [("0", "EUR")] scenario_values _ "2" 5 2).
  - apply has_shape_dataset_of.
  - repeat constructor; simpl; intuition discriminate.
  - repeat constructor; simpl; intuition discriminate.
  - reflexivity.
  - simpl. tauto.
  - vm_compute. reflexivity.
Defined.



(** C3. The geo and unit fields of an observation are the first category
    KEYS of the geo and unit axes ([list(geo_labels.keys())[0]]), not
    their labels: on a payload whose geo category ["IT"] is labelled
    ["Italy"] and whose unit category ["CP_MEUR"] is labelled ["Current
    prices, million euro"], the observation carries ["IT"] and
    ["CP_MEUR"], whereas its time field and its indicator are labels. *)
Theorem C3_geo_and_unit_fields_are_keys :
  forall to_json : list (Observation Z) -> string,
    indicator_table (Some italy_dataset)
      = Return (Some [("Gross domestic product at market prices",
                       [ {| obs_time := "2020"; obs_geo := "IT";
                            obs_unit := "CP_MEUR"; obs_value := 100 |} ])])
    /\ process_dataset_to_json to_json (Some italy_dataset)
      = Return (Some [("Gross domestic product at market prices",
                       to_json [ {| obs_time := "2020"; obs_geo := "IT";
                                    obs_unit := "CP_MEUR"; obs_value := 100 |} ])])
    /\ dict_get "IT" [("IT", "Italy")] = Some "Italy"
    /\ dict_get "CP_MEUR" [("CP_MEUR", "Current prices, million euro")]
         = Some "Current prices, million euro".
Proof. intros to_json. repeat split. Qed.

(** C6, as the claim states it, fails: a payload without the [dimension]
    member lacks every required axis, and the decoder returns [None]
    without raising anything. *)
Lemma C6_counterexample :
  dimension no_dimension = None /\
  (forall to_json : list (Observation Z) -> string,
      process_dataset_to_json to_json (Some no_dimension) = Return None) /\
  (forall to_json : list (Observation Z) -> string,
      ~ (exists e, process_dataset_to_json to_json (Some no_dimension) = Raise e)).
Proof.
  split; [reflexivity |]. split; [reflexivity |].
  intros to_json (e & He). discriminate He.
Qed.

(** C6, amended. When the [dimension] member is there and lacks one of the
    axes time, na_item, geo, unit, the decoder raises [KeyError] and
    returns no table; when the [dimension] member itself is absent, the
    decoder returns [None], no table and no exception. *)
Theorem C6_missing_axis_raises_KeyError :
  (forall (V : Type) (to_json : list (Observation V) -> string) (d : Dataset V)
          (dim : dict Axis) (axis : string),
      dimension d = Some dim ->
      In axis required_axes ->
      dict_get axis dim = None ->
      exists key, process_dataset_to_json to_json (Some d) = Raise (KeyError key))
  /\
  (forall (V : Type) (to_json : list (Observation V) -> string) (d : Dataset V),
      dimension d = None -> process_dataset_to_json to_json (Some d) = Return None).
Proof.
  split.
  - intros V to_json d dim axis Hd Hin Habs.
    assert (Htable : exists key, indicator_table (Some d) = Raise (KeyError key)).
    { unfold indicator_table. rewrite Hd.
      assert (Hcase : forall a,
                 (exists l, labels_of dim a = Return l) \/
                 (exists key, labels_of dim a = Raise (KeyError key))).
      { intros a. destruct (labels_of dim a) as [e | l] eqn:E; [right | left; eauto].
        destruct (labels_of_raises dim a e E) as (key & ->). eauto. }
      pose proof (labels_of_absent dim axis Habs) as Hraise.
      destruct (Hcase "time") as [(tl & Ht) | (key & Ht)]; rewrite Ht; simpl; [| eauto].
      destruct (Hcase "na_item") as [(nl & Hn) | (key & Hn)]; rewrite Hn; simpl; [| eauto].
      destruct (Hcase "geo") as [(gl & Hg) | (key & Hg)]; rewrite Hg; simpl; [| eauto].
      destruct (Hcase "unit") as [(ul & Hu) | (key & Hu)]; rewrite Hu; simpl; [| eauto].
      exfalso. simpl in Hin.
      destruct Hin as [<- | [<- | [<- | [<- | []]]]]; congruence. }
    destruct Htable as (key & Hkey). exists key. now apply process_raises.
  - intros V to_json d Hd. unfold process_dataset_to_json, indicator_table.
    rewrite Hd. reflexivity.
Qed.

(** C6 on the payload of the specification's scenario without its
    indicator axis. *)
Lemma C6_witness :
  dimension no_indicator_axis
    = Some [("time", axis_of [("0", "2020"); ("1", "2021")]);
            ("geo", axis_of [("0", "IT")]); ("unit", axis_of [("0", "EUR")])] /\
  In "na_item" required_axes /\
  forall to_json : list (Observation Z) -> string,
  exists key, process_dataset_to_json to_json (Some no_indicator_axis) = Raise (KeyError key).
Proof.
  split; [reflexivity |]. split; [simpl; tauto |].
  intros to_json.
  apply (proj1 C6_missing_axis_raises_KeyError Z to_json no_indicator_axis
           [("time", axis_of [("0", "2020"); ("1", "2021")]);
            ("geo", axis_of [("0", "IT")]); ("unit", axis_of [("0", "EUR")])]
           "na_item").
  - reflexivity.
  - simpl. tauto.
  - reflexivity.
Defined.

(** C9, as the claim states it, fails: the mapping [{"1": 200, "0": 100}]
    is decoded in the order in which it lists its keys, index 1 before
    index 0, and not as the same mapping listed in ascending order is. *)
Lemma C9_counterexample :
  indices swapped_values = [Some 1; Some 0] /\
  indicator_table (Some (scenario swapped_values))
    = Return (Some [("GDP", [ {| obs_time := "2021"; obs_geo := "0";
                                 obs_unit := "0"; obs_value := 200 |};
                              {| obs_time := "2020"; obs_geo := "0";
                                 obs_unit := "0"; obs_value := 100 |} ])]) /\
  (forall to_json : list (Observation Z) -> string,
      process_dataset_to_json to_json (Some (scenario swapped_values))
        = Return (Some [("GDP", to_json [ {| obs_time := "2021"; obs_geo := "0";
                                             obs_unit := "0"; obs_value := 200 |};
                                          {| obs_time := "2020"; obs_geo := "0";
                                             obs_unit := "0"; obs_value := 100 |} ])])) /\
  indicator_table (Some (scenario swapped_values))
    <> indicator_table (Some (scenario sorted_values)).
Proof.
  split; [reflexivity |]. split; [reflexivity |]. split; [reflexivity |]. discriminate.
Qed.

(** C9, amended. The decoder processes the keys of [values] in the order
    in which the mapping lists them: there is one row per entry, in that
    order, and the records of each indicator are the rows of that
    indicator in the same order. *)
Theorem C9_rows_follow_the_order_of_the_mapping :
  forall (V : Type) (to_json : list (Observation V) -> string) (d : Dataset V)
         (tl nl gl ul : dict string) (vals : dict V) (returned : dict string),
    has_shape d tl nl gl ul vals ->
    process_dataset_to_json to_json (Some d) = Return (Some returned) ->
    exists rows,
      Forall2 (fun kv r => decode_entry tl nl gl ul (fst kv) (snd kv) = Return (Some r))
              vals rows /\
      forall indicator,
        dict_get indicator returned =
          match rows_of indicator rows with
          | [] => None
          | records => Some (to_json records)
          end.
Proof.
  intros V to_json d tl nl gl ul vals returned Hs Hp.
  destruct (process_Some_inv to_json _ _ Hp) as (t & Ht & ->).
  destruct (table_inv d tl nl gl ul vals t Hs Ht) as (rows & HF & ->).
  exists rows. split; [exact HF |].
  intros indicator. rewrite dict_get_json_result, dict_get_group.
  destruct (rows_of indicator rows); reflexivity.
Qed.

(** C9 on the mapping that lists index 1 before index 0. *)
Lemma C9_witness :
  has_shape (scenario swapped_values)
            [("0", "2020"); ("1", "2021")] [("0", "GDP"); ("1", "CPI")]
            [("0", "IT")] [("0", "EUR")] swapped_values /\
  forall to_json : list (Observation Z) -> string,
  exists rows,
    Forall2 (fun kv r =>
               decode_entry [("0", "2020"); ("1", "2021")] [("0", "GDP"); ("1", "CPI")]
                            [("0", "IT")] [("0", "EUR")] (fst kv) (snd kv) = Return (Some r))
            swapped_values rows /\
    forall indicator,
      dict_get indicator
        [("GDP", to_json
                   [ {| obs_time := "2021"; obs_geo := "0"; obs_unit := "0"; obs_value := 200 |};
                     {| obs_time := "2020"; obs_geo := "0"; obs_unit := "0"; obs_value := 100 |} ])]
        = match rows_of indicator rows with
          | [] => None
          | records => Some (to_json records)
          end.
Proof.
  split; [apply has_shape_dataset_of |].
  intros to_json.
  apply (C9_rows_follow_the_order_of_the_mapping Z to_json (scenario swapped_values)
           [("0", "2020"); ("1", "2021")] [("0", "GDP"); ("1", "CPI")]
           [("0", "IT")] [("0", "EUR")] swapped_values).
  - apply has_shape_dataset_of.
  - reflexivity.
Defined.

(** C10, as the claim states it, fails twice: with an empty geo axis and
    an empty time axis the first key raises a division by zero, not an
    index error; and on an empty [values] mapping the decoder returns a
    table although no axis has a category. *)
Lemma C10_counterexample :
  (forall to_json : list (Observation Z) -> string,
      process_dataset_to_json to_json
        (Some (dataset_of [] [("0", "GDP")] [] [("0", "EUR")] [("0", 1)]))
        = Raise ZeroDivisionError) /\
  (forall to_json : list (Observation Z) -> string,
      process_dataset_to_json to_json (Some (dataset_of [] [] [] [] (@nil (string * Z))))
        = Return (Some [])).
Proof. split; reflexivity. Qed.

(** C10, amended. For a payload that passes the dimension check: on an
    empty [values] mapping the decoder returns the empty table whatever
    the sizes of the axes; when the first key of [values] is an integer,
    an empty time axis raises a division by zero on it, otherwise an empty
    indicator axis raises a division by zero, otherwise an empty geo axis,
    or else an empty unit axis, raises an index error; and the decoder
    returns a table for a non-empty [values] mapping only if each of the
    four axes has a category. *)
Theorem C10_axes_without_categories :
  forall (V : Type) (to_json : list (Observation V) -> string) (d : Dataset V)
         (tl nl gl ul : dict string) (vals : dict V),
    has_shape d tl nl gl ul vals ->
    (vals = [] -> process_dataset_to_json to_json (Some d) = Return (Some [])) /\
    (forall k v rest i,
        vals = (k, v) :: rest -> parse_int k = Some i ->
        (tl = [] -> process_dataset_to_json to_json (Some d) = Raise ZeroDivisionError) /\
        (tl <> [] -> nl = [] ->
           process_dataset_to_json to_json (Some d) = Raise ZeroDivisionError) /\
        (tl <> [] -> nl <> [] -> gl = [] ->
           process_dataset_to_json to_json (Some d) = Raise IndexError) /\
        (tl <> [] -> nl <> [] -> gl <> [] -> ul = [] ->
           process_dataset_to_json to_json (Some d) = Raise IndexError)) /\
    (forall returned,
        vals <> [] -> process_dataset_to_json to_json (Some d) = Return (Some returned) ->
        tl <> [] /\ nl <> [] /\ gl <> [] /\ ul <> []).
Proof.
  intros V to_json d tl nl gl ul vals Hs.
  pose proof (table_shape d tl nl gl ul vals Hs) as Hp.
  split; [| split].
  - intros ->. apply (process_of_table to_json _ (Some [])). rewrite Hp. reflexivity.
  - intros k v rest i -> Hk.
    destruct (decode_entry_errors tl nl gl ul k v i Hk) as (H1 & H2 & H3 & H4).
    repeat split; intros; apply process_raises; rewrite Hp;
      erewrite for_items_first_raises by eauto; reflexivity.
  - intros returned Hne Hret.
    destruct (process_Some_inv to_json _ _ Hret) as (t & Ht & _).
    destruct (table_inv d tl nl gl ul vals t Hs Ht) as (rows & HF & _).
    destruct HF as [| [k v] r vals rows Hr _]; [congruence |].
    destruct (decode_entry_inv _ _ _ _ _ _ _ Hr)
      as (i & tk & time & nk & na & g & u & _ & Htl & Hnl & _ & _ & _ & _ & Hg & Hu & _).
    repeat split; try assumption.
    + intros ->. discriminate Hg.
    + intros ->. discriminate Hu.
Qed.

(** C10 on a payload with one value and no geo category. *)
Lemma C10_witness :
  has_shape (dataset_of [("0", "2020")] [("0", "GDP")] [] [("0", "EUR")] [("0", 1)])
            [("0", "2020")] [("0", "GDP")] [] [("0", "EUR")] [("0", 1)] /\
  forall to_json : list (Observation Z) -> string,
    process_dataset_to_json to_json
      (Some (dataset_of [("0", "2020")] [("0", "GDP")] [] [("0", "EUR")] [("0", 1)]))
      = Raise IndexError.
Proof.
  split; [apply has_shape_dataset_of |].
  intros to_json.
  destruct (C10_axes_without_categories Z to_json
              (dataset_of [("0", "2020")] [("0", "GDP")] [] [("0", "EUR")] [("0", 1)])
              [("0", "2020")] [("0", "GDP")] [] [("0", "EUR")] [("0", 1)]
              (has_shape_dataset_of _ _ _ _ _)) as (_ & Hfirst & _).
  destruct (Hfirst "0" 1 [] 0 eq_refl eq_refl) as (_ & _ & Hgeo & _).
  apply Hgeo; [discriminate | discriminate | reflexivity].
Defined.

(* ===================================================================== *)
(** ** Table filtering: the claim of the specification                   *)
(* ===================================================================== *)

Section FilterFacts.
Context {V : Type}.
Implicit Types (t : dict (list (Observation V))).

Lemma filter_is_sublist {A : Type} (p : A -> bool) (l : list A) :
  sublist (List.filter p l) l.
Proof.
  induction l as [| a l IH]; simpl; [constructor |].
  destruct (p a); now constructor.
Qed.

Lemma map_filter_by_key {A : Type} (p : string -> bool) (f : A -> A) (l : dict A) :
  List.map (fun kv => (fst kv, f (snd kv))) (List.filter (fun kv => p (fst kv)) l) =
  List.filter (fun kv => p (fst kv)) (List.map (fun kv => (fst kv, f (snd kv))) l).
Proof.
  induction l as [| [k a] l IH]; simpl; [reflexivity |].
  destruct (p k); simpl; now rewrite IH.
Qed.

End FilterFacts.

(** C8. Filtering a table by indicator names and then by time labels gives
    the same table as filtering by time labels and then by indicator
    names; the indicator filter keeps a subsequence of the entries of the
    table, and the time filter keeps, for every indicator, a subsequence
    of its observations. *)
Theorem C8_filters_commute_and_keep_order :
  forall (V : Type) (indicators time_range : option (list string))
         (t : dict (list (Observation V))),
    filter_time_range time_range (filter_indicators indicators t)
      = filter_indicators indicators (filter_time_range time_range t) /\
    sublist (filter_indicators indicators t) t /\
    Forall2 (fun kept original =>
               fst kept = fst original /\ sublist (snd kept) (snd original))
            (filter_time_range time_range t) t.
Proof.
  intros V indicators time_range t. split; [| split].
  - destruct indicators as [[| i irest] |]; destruct time_range as [[| s ss] |];
      try reflexivity.
    unfold filter_indicators, filter_time_range.
    apply (map_filter_by_key (fun k => str_in k (i :: irest))
             (List.filter (fun data => str_in (obs_time data) (s :: ss)))).
  - destruct indicators as [[| i irest] |]; simpl; try reflexivity.
    apply filter_is_sublist.
  - assert (Hrefl : Forall2 (fun kept original : string * list (Observation V) =>
                               fst kept = fst original /\ sublist (snd kept) (snd original)) t t).
    { induction t; constructor; [split; reflexivity | assumption]. }
    destruct time_range as [[| s ss] |]; simpl; try exact Hrefl.
    clear Hrefl. induction t as [| [k rows] t IH]; simpl; constructor; [| exact IH].
    simpl. split; [reflexivity | apply filter_is_sublist].
Qed.

(* ===================================================================== *)
(** ** Facts about the cache                                             *)
(* ===================================================================== *)

Lemma json_getitem_raises (j : json) (k : string) (e : exn) :
  json_getitem j k = Raise e -> is_transport e = false.
Proof.
  destruct j; simpl; intros H; try (injection H as <-; reflexivity).
  unfold dict_getitem in H. destruct (dict_get k members); [discriminate |].
  injection H as <-. reflexivity.
Qed.

Lemma float_sub_raises (now : float) (j : json) (e : exn) :
  float_sub now j = Raise e -> is_transport e = false.
Proof.
  destruct j as [| b | z | f | s | items | members]; simpl; intros H;
    try discriminate; try (injection H as <-; reflexivity).
  unfold float_of_int in H.
  destruct (PrimFloat.is_infinity _); simpl in H; [| discriminate].
  injection H as <-. reflexivity.
Qed.

Lemma load_cache_absent (w : World) (cache_file : string) (timeout : float) :
  files w !! cache_file = None ->
  _load_cache cache_file timeout w = (Return JNull, w).
Proof.
  intros H. unfold _load_cache, io_bind, path_exists. rewrite H. reflexivity.
Qed.

Lemma load_cache_malformed (w : World) (cache_file : string) (timeout : float) :
  files w !! cache_file = Some Malformed ->
  _load_cache cache_file timeout w = (Raise JSONDecodeError, w).
Proof.
  intros H. unfold _load_cache, io_bind, path_exists, read_json.
  cbv beta. rewrite !H. reflexivity.
Qed.

Lemma load_cache_unreadable (w : World) (cache_file : string) (timeout : float) :
  files w !! cache_file = Some Unreadable ->
  _load_cache cache_file timeout w = (Raise OSError, w).
Proof.
  intros H. unfold _load_cache, io_bind, path_exists, read_json.
  cbv beta. rewrite !H. reflexivity.
Qed.

(** Reading a cache file that holds a JSON document: the clock is read
    once, then the timestamp decides. *)
Lemma load_cache_document (w : World) (cache_file : string) (timeout : float) (j : json) :
  files w !! cache_file = Some (Document j) ->
  _load_cache cache_file timeout w =
    (timestamp <- json_getitem j "timestamp" ;;
     age <- float_sub (clock w (clock_reads w)) timestamp ;;
     if PrimFloat.ltb age timeout then json_getitem j "data" else Return JNull,
     tick w).
Proof.
  intros H. unfold _load_cache, io_bind, path_exists, read_json, time_time, lift, ret.
  cbv beta. rewrite !H. cbv beta iota.
  destruct (json_getitem j "timestamp") as [e | ts]; simpl; [reflexivity |].
  destruct (float_sub (clock w (clock_reads w)) ts) as [e | age]; simpl; [reflexivity |].
  destruct (PrimFloat.ltb age timeout); reflexivity.
Qed.

(** Reading the cache changes nothing but the count of clock readings,
    and what it raises is no transport exception. *)
Lemma load_cache_frame (w : World) (cache_file : string) (timeout : float) :
  (snd (_load_cache cache_file timeout w) = w \/
   snd (_load_cache cache_file timeout w) = tick w) /\
  (forall e, fst (_load_cache cache_file timeout w) = Raise e -> is_transport e = false).
Proof.
  destruct (files w !! cache_file) as [[| | j] |] eqn:E.
  - rewrite (load_cache_unreadable _ _ _ E). simpl. split; [now left |].
    intros e H. injection H as <-. reflexivity.
  - rewrite (load_cache_malformed _ _ _ E). simpl. split; [now left |].
    intros e H. injection H as <-. reflexivity.
  - rewrite (load_cache_document _ _ _ _ E). simpl. split; [now right |].
    intros e H.
    apply bind_Raise_inv in H. destruct H as [H | (ts & _ & H)].
    { eapply json_getitem_raises; eassumption. }
    apply bind_Raise_inv in H. destruct H as [H | (age & _ & H)].
    { eapply float_sub_raises; eassumption. }
    destruct (PrimFloat.ltb age timeout); [| discriminate].
    eapply json_getitem_raises; eassumption.
  - rewrite (load_cache_absent _ _ _ E). simpl. split; [now left |].
    intros e H. discriminate.
Qed.

Lemma make_request_eq (url : string) (params : Params) (w : World) :
  _make_request url params w =
    (Return (match request_attempt (network w (length (requests w))) with
             | Return j => j
             | Raise _ => JNull
             end),
     send url params w).
Proof.
  unfold _make_request, io_bind, requests_get, ret.
  destruct (request_attempt (network w (length (requests w)))) as [[] | j]; reflexivity.
Qed.



Lemma dumpable_entry (data : json) (timestamp : float) :
  dumpable (JObj [("data", data); ("timestamp", JFloat timestamp)]) = dumpable data.
Proof. cbn [dumpable List.forallb]. now rewrite !andb_true_r. Qed.

(** [_cache_response] reads the clock, then writes the entry: the three
    outcomes of the write. *)
Lemma cache_response_eq (cache_file : string) (data : json) (w : World) :
  _cache_response cache_file data w =
    if locked w cache_file then (Raise OSError, tick w)
    else if dumpable data
         then (Return tt,
               store cache_file
                     (JObj [("data", data); ("timestamp", JFloat (clock w (clock_reads w)))])
                     (tick w))
         else (Raise ValueError, spoil cache_file (tick w)).
Proof.
  unfold _cache_response, io_bind, time_time, write_json. cbv beta iota.
  rewrite dumpable_entry. cbn [locked tick].
  destruct (locked w cache_file); [reflexivity |].
  destruct (dumpable data); reflexivity.
Qed.

(** A fetch with a truthy answer that [json.dump] can write, the cache
    being on and the file writable: one request, one clock reading, one
    write. *)
Lemma fetch_dataset_stores (dataset_id : string) (params : Params) (format_type : string)
    (cache_file url : string) (w : World) (fetched : json) :
  request_url format_type dataset_id = Return url ->
  request_attempt (network w (length (requests w))) = Return fetched ->
  truthy fetched = true ->
  dumpable fetched = true ->
  locked w cache_file = false ->
  fetch_dataset dataset_id params format_type true cache_file w
    = (Return fetched,
       store cache_file
             (JObj [("data", fetched); ("timestamp", JFloat (clock w (clock_reads w)))])
             (tick (send url params w))).
Proof.
  intros Hu Hr Ht Hd Hl. unfold fetch_dataset, io_bind, lift.
  rewrite Hu, make_request_eq, Hr, Ht, cache_response_eq.
  cbn [locked send]. rewrite Hl, Hd. reflexivity.
Qed.

Lemma get_dataset_eq (dataset_id : string) (params : Params) (format_type : string)
    (cache_file : string) (w : World) :
  get_dataset dataset_id params format_type true cache_file w =
    match _load_cache cache_file DEFAULT_TIMEOUT w with
    | (Raise e, w') => (Raise e, w')
    | (Return cached_data, w') =>
        if truthy cached_data then (Return cached_data, w')
        else fetch_dataset dataset_id params format_type true cache_file w'
    end.
Proof.
  unfold get_dataset, io_bind.
  destruct (_load_cache cache_file DEFAULT_TIMEOUT w) as [[e | cached] w']; [reflexivity |].
  simpl. destruct (truthy cached); reflexivity.
Qed.

Lemma get_dataset_without_cache (dataset_id : string) (params : Params) (format_type : string)
    (cache_file : string) (w : World) :
  get_dataset dataset_id params format_type false cache_file w =
    fetch_dataset dataset_id params format_type false cache_file w.
Proof. reflexivity. Qed.

Lemma fetch_dataset_bad_format (dataset_id : string) (params : Params) (format_type : string)
    (cache : bool) (cache_file : string) (w : World) (e : exn) :
  request_url format_type dataset_id = Raise e ->
  fetch_dataset dataset_id params format_type cache cache_file w = (Raise e, w).
Proof. intros Hu. unfold fetch_dataset, io_bind, lift. rewrite Hu. reflexivity. Qed.

(** Whatever the network answers, a fetch with a valid format sends
    exactly one request. *)
Lemma fetch_dataset_requests (dataset_id : string) (params : Params) (format_type : string)
    (cache : bool) (cache_file url : string) (w : World) :
  request_url format_type dataset_id = Return url ->
  requests (snd (fetch_dataset dataset_id params format_type cache cache_file w))
    = requests w ++ [(url, params)].
Proof.
  intros Hu. unfold fetch_dataset, io_bind, lift. rewrite Hu, make_request_eq.
  destruct (truthy _); [| reflexivity].
  destruct cache; [| reflexivity].
  rewrite cache_response_eq. cbn [locked send].
  destruct (locked w cache_file); [reflexivity |].
  destruct (dumpable _); reflexivity.
Qed.


(* ===================================================================== *)
(** ** The cache: the claims of the specification                        *)
(* ===================================================================== *)

(** C4. With a stored entry for the cache file whose payload was fetched
    earlier (so it is truthy): when the age of the entry, the reading of
    the clock minus its timestamp as Python computes it on floats, is less
    than the time-to-live, [get_dataset] returns the stored payload, sends
    no request and leaves the file as it is; when the age is not less than
    the time-to-live, exactly one request is sent, and a successful
    (truthy) answer is returned and written to the cache file with the
    reading of the clock at the time of the write (the answer being one
    that [json.dump] can write, and the file one that can be written). *)
Theorem C4_fresh_entry_is_served_and_stale_entry_is_refreshed :
  forall (w : World) (dataset_id : string) (params : Params)
         (format_type cache_file : string) (entry stored timestamp : json) (age : float),
    files w !! cache_file = Some (Document entry) ->
    json_getitem entry "timestamp" = Return timestamp ->
    json_getitem entry "data" = Return stored ->
    float_sub (clock w (clock_reads w)) timestamp = Return age ->
    (PrimFloat.ltb age DEFAULT_TIMEOUT = true ->
     truthy stored = true ->
     fst (get_dataset dataset_id params format_type true cache_file w) = Return stored /\
     requests (snd (get_dataset dataset_id params format_type true cache_file w))
       = requests w /\
     files (snd (get_dataset dataset_id params format_type true cache_file w))
       = files w)
    /\
    (forall url : string,
        PrimFloat.ltb age DEFAULT_TIMEOUT = false ->
        request_url format_type dataset_id = Return url ->
        requests (snd (get_dataset dataset_id params format_type true cache_file w))
          = requests w ++ [(url, params)] /\
        forall fetched : json,
          request_attempt (network w (length (requests w))) = Return fetched ->
          truthy fetched = true ->
          dumpable fetched = true ->
          locked w cache_file = false ->
          fst (get_dataset dataset_id params format_type true cache_file w)
            = Return fetched /\
          files (snd (get_dataset dataset_id params format_type true cache_file w))
            = <[cache_file :=
                  Document (JObj [("data", fetched);
                                  ("timestamp", JFloat (clock w (S (clock_reads w))))])]>
                (files w)).
Proof.
  intros w dataset_id params format_type cache_file entry stored timestamp age
         Hfile Hts Hdata Hage.
  pose proof (load_cache_document w cache_file DEFAULT_TIMEOUT entry Hfile) as Hload.
  rewrite Hts in Hload. cbn [bind] in Hload. rewrite Hage in Hload. cbn [bind] in Hload.
  split.
  - intros Hfresh Htruthy.
    rewrite Hfresh, Hdata in Hload.
    rewrite get_dataset_eq, Hload, Htruthy. simpl. auto.
  - intros url Hstale Hurl.
    rewrite Hstale in Hload.
    rewrite get_dataset_eq, Hload. cbn [truthy].
    split.
    + now rewrite (fetch_dataset_requests _ _ _ _ _ _ _ Hurl).
    + intros fetched Hreply Htruthy Hdump Hlock.
      rewrite (fetch_dataset_stores dataset_id params format_type cache_file url
                 (tick w) fetched Hurl Hreply Htruthy Hdump Hlock).
      simpl. auto.
Qed.

(** C4 on an entry stored at second 1000: read at second 2000 it is
    served, read at second 4600 it is replaced by the answer of the
    network, stamped 4601. *)
Lemma C4_witness :
  (fst (get_dataset "nama_10_gdp" None "json" true "cache.json"
          (sample_world (Some (Document (entry_at 1000))) reply_ok 2000))
     = Return old_payload /\
   requests (snd (get_dataset "nama_10_gdp" None "json" true "cache.json"
                    (sample_world (Some (Document (entry_at 1000))) reply_ok 2000)))
     = [] /\
   files (snd (get_dataset "nama_10_gdp" None "json" true "cache.json"
                 (sample_world (Some (Document (entry_at 1000))) reply_ok 2000)))
     = {[ "cache.json" := Document (entry_at 1000) ]})
  /\
  (fst (get_dataset "nama_10_gdp" None "json" true "cache.json"
          (sample_world (Some (Document (entry_at 1000))) reply_ok 4600))
     = Return new_payload /\
   files (snd (get_dataset "nama_10_gdp" None "json" true "cache.json"
                 (sample_world (Some (Document (entry_at 1000))) reply_ok 4600)))
     = <[ "cache.json" :=
            Document (JObj [("data", new_payload); ("timestamp", JFloat 4601)]) ]>
         {[ "cache.json" := Document (entry_at 1000) ]}).
Proof.
  split.
  - apply (proj1 (C4_fresh_entry_is_served_and_stale_entry_is_refreshed
                    (sample_world (Some (Document (entry_at 1000))) reply_ok 2000)
                    "nama_10_gdp" None "json" "cache.json" (entry_at 1000) old_payload
                    (JFloat 1000) 1000
                    (lookup_singleton_eq _ _) eq_refl eq_refl eq_refl)).
    + reflexivity.
    + reflexivity.
  - apply (proj2 (C4_fresh_entry_is_served_and_stale_entry_is_refreshed
                    (sample_world (Some (Document (entry_at 1000))) reply_ok 4600)
                    "nama_10_gdp" None "json" "cache.json" (entry_at 1000) old_payload
                    (JFloat 1000) 3600
                    (lookup_singleton_eq _ _) eq_refl eq_refl eq_refl) gdp_url).
    + reflexivity.
    + reflexivity.
    + reflexivity.
    + reflexivity.
    + reflexivity.
    + reflexivity.
Defined.






(* ===================================================================== *)
(** ** More about the cache and the request                              *)
(* ===================================================================== *)

Lemma fetch_dataset_result (dataset_id : string) (params : Params) (format_type : string)
    (cache : bool) (cache_file : string) (w : World) (j : json) :
  fst (fetch_dataset dataset_id params format_type cache cache_file w) = Return j ->
  j = JNull \/ truthy j = true.
Proof.
  unfold fetch_dataset, io_bind, lift.
  destruct (request_url format_type dataset_id) as [e | url]; [discriminate |].
  rewrite make_request_eq.
  destruct (truthy _) eqn:Ht.
  - destruct cache.
    + rewrite cache_response_eq. cbn [locked send].
      destruct (locked w cache_file); simpl; intros H; [discriminate |].
      destruct (dumpable _); simpl in H; [| discriminate].
      injection H as <-. now right.
    + simpl. intros H. injection H as <-. now right.
  - simpl. intros H. injection H as <-. now left.
Qed.

(** The files after a fetch: as before, or as before with the cache file
    rewritten. *)
Lemma fetch_dataset_files (dataset_id : string) (params : Params) (format_type : string)
    (cache : bool) (cache_file : string) (w : World) :
  files (snd (fetch_dataset dataset_id params format_type cache cache_file w)) = files w \/
  (cache = true /\
   exists f, files (snd (fetch_dataset dataset_id params format_type cache cache_file w))
             = <[cache_file := f]> (files w)).
Proof.
  unfold fetch_dataset, io_bind, lift.
  destruct (request_url format_type dataset_id) as [e | url]; [now left |].
  rewrite make_request_eq.
  destruct (truthy _); [| now left].
  destruct cache; [| now left].
  rewrite cache_response_eq. cbn [locked send].
  destruct (locked w cache_file); simpl; [now left |].
  right. split; [reflexivity |].
  destruct (dumpable _); eexists; reflexivity.
Qed.

(** An answer that [get_dataset] cannot use: the request failed, or its
    body is falsy. *)
Lemma fetch_dataset_unusable (dataset_id : string) (params : Params) (format_type : string)
    (cache : bool) (cache_file url : string) (w : World) (body : json) :
  request_url format_type dataset_id = Return url ->
  request_attempt (network w (length (requests w))) = Return body ->
  truthy body = false ->
  fetch_dataset dataset_id params format_type cache cache_file w
    = (Return JNull, send url params w).
Proof.
  intros Hu Hr Ht. unfold fetch_dataset, io_bind, lift.
  rewrite Hu, make_request_eq, Hr, Ht. reflexivity.
Qed.

(** X1. [_make_request] never raises: whatever the network does, it sends
    exactly one request, writes no file, and returns the decoded body
    when the whole [try] succeeds and [None] in every other case. *)
Theorem X1_make_request_catches_everything :
  forall (url : string) (params : Params) (w : World),
    (forall e, fst (_make_request url params w) <> Raise e) /\
    requests (snd (_make_request url params w)) = requests w ++ [(url, params)] /\
    files (snd (_make_request url params w)) = files w /\
    (fetch_fails (network w (length (requests w))) = true ->
     fst (_make_request url params w) = Return JNull) /\
    (forall j, request_attempt (network w (length (requests w))) = Return j ->
               fst (_make_request url params w) = Return j).
Proof.
  intros url params w. rewrite make_request_eq. simpl.
  split; [discriminate |]. split; [reflexivity |]. split; [reflexivity |]. split.
  - unfold fetch_fails.
    destruct (request_attempt (network w (length (requests w)))); [reflexivity | discriminate].
  - intros j ->. reflexivity.
Qed.

(** X2. Store and load, for a float timeout: after [_cache_response] has
    written a payload that [json.dump] can write to a writable cache
    file, [_load_cache] gives that payload back when the next reading of the clock minus the reading
    that was written, as Python computes it on floats, is less than the
    timeout, and [None] when it is not. *)
Theorem X2_cache_store_then_load :
  forall (w : World) (cache_file : string) (data : json) (timeout : float),
    locked w cache_file = false ->
    dumpable data = true ->
    fst (_cache_response cache_file data w) = Return tt /\
    (PrimFloat.ltb (PrimFloat.sub (clock w (S (clock_reads w))) (clock w (clock_reads w)))
                   timeout = true ->
     fst (_load_cache cache_file timeout (snd (_cache_response cache_file data w)))
       = Return data) /\
    (PrimFloat.ltb (PrimFloat.sub (clock w (S (clock_reads w))) (clock w (clock_reads w)))
                   timeout = false ->
     fst (_load_cache cache_file timeout (snd (_cache_response cache_file data w)))
       = Return JNull).
Proof.
  intros w cache_file data timeout Hl Hd.
  assert (Hstore : _cache_response cache_file data w
                   = (Return tt,
                      store cache_file
                        (JObj [("data", data); ("timestamp", JFloat (clock w (clock_reads w)))])
                        (tick w))).
  { rewrite cache_response_eq, Hl, Hd. reflexivity. }
  rewrite Hstore. simpl. split; [reflexivity |].
  pose proof (load_cache_document
                (store cache_file
                   (JObj [("data", data); ("timestamp", JFloat (clock w (clock_reads w)))])
                   (tick w))
                cache_file timeout _ (lookup_insert_eq _ _ _)) as Hload.
  simpl in Hload. rewrite Hload. simpl.
  split.
  - intros Hfresh. now rewrite Hfresh.
  - intros Hstale. now rewrite Hstale.
Qed.

Lemma X2_witness :
  locked (sample_world None reply_ok 4600) "cache.json" = false /\
  dumpable new_payload = true /\
  fst (_cache_response "cache.json" new_payload (sample_world None reply_ok 4600))
    = Return tt /\
  fst (_load_cache "cache.json" 3600
         (snd (_cache_response "cache.json" new_payload (sample_world None reply_ok 4600))))
    = Return new_payload.
Proof.
  split; [reflexivity |]. split; [reflexivity |].
  destruct (X2_cache_store_then_load (sample_world None reply_ok 4600) "cache.json"
              new_payload 3600 eq_refl eq_refl) as (Hs & Hfresh & _).
  split; [exact Hs |]. apply Hfresh. reflexivity.
Defined.

(** X3. Two calls in a row: when the cache file does not exist yet, a
    first [get_dataset] with the cache on fetches and stores a truthy
    answer (one that [json.dump] can write); a second call, made when the reading of the clock minus the
    reading that was written, as Python computes it on floats, is less
    than the time-to-live, returns the same payload and sends no second
    request. *)
Theorem X3_second_call_is_served_from_the_cache :
  forall (w : World) (dataset_id : string) (params : Params)
         (format_type cache_file url : string) (fetched : json),
    files w !! cache_file = None ->
    request_url format_type dataset_id = Return url ->
    request_attempt (network w (length (requests w))) = Return fetched ->
    truthy fetched = true ->
    dumpable fetched = true ->
    locked w cache_file = false ->
    PrimFloat.ltb (PrimFloat.sub (clock w (S (clock_reads w))) (clock w (clock_reads w)))
                  DEFAULT_TIMEOUT = true ->
    fst (get_dataset dataset_id params format_type true cache_file w) = Return fetched /\
    fst (get_dataset dataset_id params format_type true cache_file
           (snd (get_dataset dataset_id params format_type true cache_file w)))
      = Return fetched /\
    requests (snd (get_dataset dataset_id params format_type true cache_file
                     (snd (get_dataset dataset_id params format_type true cache_file w))))
      = requests w ++ [(url, params)].
Proof.
  intros w dataset_id params format_type cache_file url fetched Habs Hurl Hreply Ht Hd Hl
         Hfresh.
  assert (Hfirst : get_dataset dataset_id params format_type true cache_file w
                   = (Return fetched,
                      store cache_file
                        (JObj [("data", fetched); ("timestamp", JFloat (clock w (clock_reads w)))])
                        (tick (send url params w)))).
  { rewrite get_dataset_eq, (load_cache_absent _ _ _ Habs). simpl.
    now apply fetch_dataset_stores. }
  rewrite Hfirst. simpl. split; [reflexivity |].
  rewrite get_dataset_eq.
  pose proof (load_cache_document
                (store cache_file
                   (JObj [("data", fetched); ("timestamp", JFloat (clock w (clock_reads w)))])
                   (tick (send url params w)))
                cache_file DEFAULT_TIMEOUT _ (lookup_insert_eq _ _ _)) as Hload.
  simpl in Hload. rewrite Hfresh in Hload.
  rewrite Hload. unfold dict_getitem. simpl. rewrite Ht. simpl. split; reflexivity.
Qed.

Lemma X3_witness :
  files (sample_world None reply_ok 4600) !! "cache.json" = None /\
  fst (get_dataset "nama_10_gdp" None "json" true "cache.json"
         (sample_world None reply_ok 4600)) = Return new_payload /\
  fst (get_dataset "nama_10_gdp" None "json" true "cache.json"
         (snd (get_dataset "nama_10_gdp" None "json" true "cache.json"
                 (sample_world None reply_ok 4600)))) = Return new_payload /\
  requests (snd (get_dataset "nama_10_gdp" None "json" true "cache.json"
                   (snd (get_dataset "nama_10_gdp" None "json" true "cache.json"
                           (sample_world None reply_ok 4600)))))
    = [] ++ [(gdp_url, None)].
Proof.
  split; [apply lookup_empty |].
  apply (X3_second_call_is_served_from_the_cache (sample_world None reply_ok 4600)
           "nama_10_gdp" None "json" "cache.json" gdp_url new_payload).
  - apply lookup_empty.
  - reflexivity.
  - reflexivity.
  - reflexivity.
  - reflexivity.
  - reflexivity.
  - reflexivity.
Defined.

(** X4. Without the cache, [get_dataset] with a supported format sends
    exactly one request and changes nothing else: no file is read or
    written and the clock is not read. It returns the body when the
    request succeeds with a truthy body, and [None] otherwise. *)
Theorem X4_get_dataset_without_cache_only_sends_the_request :
  forall (w : World) (dataset_id : string) (params : Params)
         (format_type cache_file url : string),
    request_url format_type dataset_id = Return url ->
    get_dataset dataset_id params format_type false cache_file w
      = (Return (match request_attempt (network w (length (requests w))) with
                 | Return body => if truthy body then body else JNull
                 | Raise _ => JNull
                 end),
         send url params w).
Proof.
  intros w dataset_id params format_type cache_file url Hurl.
  rewrite get_dataset_without_cache.
  unfold fetch_dataset, io_bind, lift. rewrite Hurl, make_request_eq.
  destruct (request_attempt (network w (length (requests w)))) as [e | body]; [reflexivity |].
  destruct (truthy body); reflexivity.
Qed.

Lemma X4_witness :
  request_url "sdmx" "nama_10_gdp"
    = Return (BASE_URL_SDMX ++ "nama_10_gdp" ++ "/1.0")%string /\
  get_dataset "nama_10_gdp" None "sdmx" false "cache.json"
              (sample_world (Some Malformed) reply_ok 4600)
    = (Return new_payload,
       send (BASE_URL_SDMX ++ "nama_10_gdp" ++ "/1.0")%string None
            (sample_world (Some Malformed) reply_ok 4600)).
Proof.
  split; [reflexivity |].
  apply (X4_get_dataset_without_cache_only_sends_the_request
           (sample_world (Some Malformed) reply_ok 4600) "nama_10_gdp" None "sdmx"
           "cache.json" _ eq_refl).
Defined.

(** X5. The format is checked after the cache. With a format other than
    ['json'] and ['sdmx'], [get_dataset] without the cache raises
    [ValueError] and sends no request; with the cache on and an entry
    holding a truthy payload whose age, as Python computes it on floats,
    is less than the time-to-live, it returns that payload all the same,
    and does not raise. *)
Theorem X5_format_is_checked_after_the_cache :
  forall (w : World) (dataset_id : string) (params : Params)
         (format_type cache_file : string) (entry stored timestamp : json) (age : float),
    format_type <> "json" -> format_type <> "sdmx" ->
    get_dataset dataset_id params format_type false cache_file w = (Raise ValueError, w) /\
    (files w !! cache_file = Some (Document entry) ->
     json_getitem entry "timestamp" = Return timestamp ->
     json_getitem entry "data" = Return stored ->
     float_sub (clock w (clock_reads w)) timestamp = Return age ->
     PrimFloat.ltb age DEFAULT_TIMEOUT = true ->
     truthy stored = true ->
     fst (get_dataset dataset_id params format_type true cache_file w) = Return stored).
Proof.
  intros w dataset_id params format_type cache_file entry stored timestamp age Hj Hs.
  assert (Hurl : request_url format_type dataset_id = Raise ValueError).
  { unfold request_url.
    destruct (String.eqb_spec format_type "json"); [contradiction |].
    destruct (String.eqb_spec format_type "sdmx"); [contradiction | reflexivity]. }
  split.
  - rewrite get_dataset_without_cache. now apply fetch_dataset_bad_format.
  - intros Hfile Hts Hdata Hage Hfresh Ht.
    pose proof (load_cache_document w cache_file DEFAULT_TIMEOUT entry Hfile) as Hload.
    rewrite Hts in Hload. cbn [bind] in Hload. rewrite Hage in Hload. cbn [bind] in Hload.
    rewrite Hfresh, Hdata in Hload.
    rewrite get_dataset_eq, Hload, Ht. reflexivity.
Qed.

Lemma X5_witness :
  get_dataset "nama_10_gdp" None "csv" false "cache.json"
              (sample_world (Some (Document (entry_at 1000))) reply_ok 2000)
    = (Raise ValueError, sample_world (Some (Document (entry_at 1000))) reply_ok 2000) /\
  fst (get_dataset "nama_10_gdp" None "csv" true "cache.json"
         (sample_world (Some (Document (entry_at 1000))) reply_ok 2000))
    = Return old_payload.
Proof.
  destruct (X5_format_is_checked_after_the_cache
              (sample_world (Some (Document (entry_at 1000))) reply_ok 2000)
              "nama_10_gdp" None "csv" "cache.json" (entry_at 1000) old_payload
              (JFloat 1000) 1000)
    as (Hraise & Hhit).
  - discriminate.
  - discriminate.
  - split; [exact Hraise |].
    apply Hhit; reflexivity.
Defined.

(** The world after a cache read: as before but for the count of clock
    readings. *)
Lemma load_cache_world (w : World) (cache_file : string) (timeout : float) :
  files (snd (_load_cache cache_file timeout w)) = files w /\
  requests (snd (_load_cache cache_file timeout w)) = requests w /\
  network (snd (_load_cache cache_file timeout w)) = network w /\
  locked (snd (_load_cache cache_file timeout w)) = locked w.
Proof.
  destruct (load_cache_frame w cache_file timeout) as ([-> | ->] & _); repeat split.
Qed.

(** X6. A request that succeeds with a falsy body (an empty object, an
    empty list, [null], zero) is treated like a failed one: [get_dataset]
    writes no file, so a stored entry stays as it was, and once the
    request has been sent the call returns [None]. *)
Theorem X6_falsy_body_is_no_dataset :
  forall (w : World) (dataset_id : string) (params : Params) (format_type : string)
         (cache : bool) (cache_file : string) (body : json),
    request_attempt (network w (length (requests w))) = Return body ->
    truthy body = false ->
    files (snd (get_dataset dataset_id params format_type cache cache_file w)) = files w /\
    (requests (snd (get_dataset dataset_id params format_type cache cache_file w))
       <> requests w ->
     fst (get_dataset dataset_id params format_type cache cache_file w) = Return JNull).
Proof.
  intros w dataset_id params format_type cache cache_file body Hreply Hfalsy.
  assert (Hfetch : forall w',
             files w' = files w -> requests w' = requests w -> network w' = network w ->
             files (snd (fetch_dataset dataset_id params format_type cache cache_file w'))
               = files w /\
             (requests (snd (fetch_dataset dataset_id params format_type cache cache_file w'))
                <> requests w ->
              fst (fetch_dataset dataset_id params format_type cache cache_file w')
                = Return JNull)).
  { intros w' Hf Hr Hn.
    destruct (request_url format_type dataset_id) as [e | url] eqn:Hurl.
    - rewrite (fetch_dataset_bad_format _ _ _ _ _ _ _ Hurl). simpl.
      split; [exact Hf |]. intros H. now contradiction H.
    - rewrite (fetch_dataset_unusable dataset_id params format_type cache cache_file url w' body
                 Hurl); [| now rewrite Hn, Hr | exact Hfalsy].
      simpl. split; [exact Hf | reflexivity]. }
  destruct cache.
  - rewrite get_dataset_eq.
    destruct (load_cache_world w cache_file DEFAULT_TIMEOUT) as (Hf & Hr & Hn & _).
    destruct (_load_cache cache_file DEFAULT_TIMEOUT w) as [[e | cached] w']; simpl in *.
    + split; [exact Hf |]. intros H. now contradiction H.
    + destruct (truthy cached).
      * simpl. split; [exact Hf |]. intros H. now contradiction H.
      * now apply Hfetch.
  - rewrite get_dataset_without_cache. now apply Hfetch.
Qed.

Lemma X6_witness :
  request_attempt reply_empty_object = Return (JObj []) /\
  files (snd (get_dataset "nama_10_gdp" None "json" true "cache.json"
                (sample_world (Some (Document (entry_at 1000))) reply_empty_object 4600)))
    = {[ "cache.json" := Document (entry_at 1000) ]} /\
  fst (get_dataset "nama_10_gdp" None "json" true "cache.json"
         (sample_world (Some (Document (entry_at 1000))) reply_empty_object 4600))
    = Return JNull.
Proof.
  split; [reflexivity |].
  destruct (X6_falsy_body_is_no_dataset
              (sample_world (Some (Document (entry_at 1000))) reply_empty_object 4600)
              "nama_10_gdp" None "json" true "cache.json" (JObj []) eq_refl eq_refl)
    as (Hfiles & Hnone).
  split; [exact Hfiles |].
  apply Hnone. vm_compute. discriminate.
Defined.

(** X7. What [get_dataset] returns is [None] or a truthy value: never an
    empty object, an empty list, zero, [False] or the empty string. *)
Theorem X7_get_dataset_returns_None_or_a_truthy_value :
  forall (w : World) (dataset_id : string) (params : Params) (format_type : string)
         (cache : bool) (cache_file : string) (j : json),
    fst (get_dataset dataset_id params format_type cache cache_file w) = Return j ->
    j = JNull \/ truthy j = true.
Proof.
  intros w dataset_id params format_type cache cache_file j.
  destruct cache.
  - rewrite get_dataset_eq.
    destruct (_load_cache cache_file DEFAULT_TIMEOUT w) as [[e | cached] w']; [discriminate |].
    destruct (truthy cached) eqn:Ht.
    + simpl. intros H. injection H as <-. now right.
    + apply fetch_dataset_result.
  - rewrite get_dataset_without_cache. apply fetch_dataset_result.
Qed.

Lemma X7_witness :
  fst (get_dataset "nama_10_gdp" None "json" false "cache.json"
         (sample_world None reply_empty_object 4600)) = Return JNull /\
  (JNull = JNull \/ truthy JNull = true).
Proof.
  split; [reflexivity |].
  apply (X7_get_dataset_returns_None_or_a_truthy_value
           (sample_world None reply_empty_object 4600)
           "nama_10_gdp" None "json" false "cache.json" JNull).
  reflexivity.
Defined.

(** X8. A stored entry whose payload is falsy is never served, however
    fresh it is: when its timestamp is a number from which Python can
    compute the age, [get_dataset] goes on to the request. *)
Theorem X8_falsy_stored_payload_is_a_miss :
  forall (w : World) (dataset_id : string) (params : Params)
         (format_type cache_file url : string) (entry stored timestamp : json)
         (age : float),
    files w !! cache_file = Some (Document entry) ->
    json_getitem entry "timestamp" = Return timestamp ->
    json_getitem entry "data" = Return stored ->
    float_sub (clock w (clock_reads w)) timestamp = Return age ->
    truthy stored = false ->
    request_url format_type dataset_id = Return url ->
    requests (snd (get_dataset dataset_id params format_type true cache_file w))
      = requests w ++ [(url, params)].
Proof.
  intros w dataset_id params format_type cache_file url entry stored timestamp age
         Hfile Hts Hdata Hage Hfalsy Hurl.
  pose proof (load_cache_document w cache_file DEFAULT_TIMEOUT entry Hfile) as Hload.
  rewrite Hts in Hload. cbn [bind] in Hload. rewrite Hage in Hload. cbn [bind] in Hload.
  rewrite get_dataset_eq, Hload.
  destruct (PrimFloat.ltb age DEFAULT_TIMEOUT).
  - rewrite Hdata, Hfalsy. now rewrite (fetch_dataset_requests _ _ _ _ _ _ _ Hurl).
  - cbn [truthy]. now rewrite (fetch_dataset_requests _ _ _ _ _ _ _ Hurl).
Qed.

Lemma X8_witness :
  files (sample_world (Some (Document (falsy_entry_at 1000))) reply_ok 1001) !! "cache.json"
    = Some (Document (falsy_entry_at 1000)) /\
  truthy (JObj []) = false /\
  requests (snd (get_dataset "nama_10_gdp" None "json" true "cache.json"
                   (sample_world (Some (Document (falsy_entry_at 1000))) reply_ok 1001)))
    = [] ++ [(gdp_url, None)].
Proof.
  split; [apply lookup_singleton_eq |]. split; [reflexivity |].
  apply (X8_falsy_stored_payload_is_a_miss
           (sample_world (Some (Document (falsy_entry_at 1000))) reply_ok 1001)
           "nama_10_gdp" None "json" "cache.json" gdp_url
           (falsy_entry_at 1000) (JObj []) (JFloat 1000) 1).
  - apply lookup_singleton_eq.
  - reflexivity.
  - reflexivity.
  - reflexivity.
  - reflexivity.
  - reflexivity.
Defined.

(** X9. When the cache file cannot be opened for writing, a download that
    succeeded is lost: with no cache file yet and a truthy answer,
    [get_dataset] with the cache on raises [OSError] after the request
    has been sent, and no file is written. *)
Theorem X9_unwritable_cache_file_loses_the_download :
  forall (w : World) (dataset_id : string) (params : Params)
         (format_type cache_file url : string) (fetched : json),
    files w !! cache_file = None ->
    request_url format_type dataset_id = Return url ->
    request_attempt (network w (length (requests w))) = Return fetched ->
    truthy fetched = true ->
    locked w cache_file = true ->
    fst (get_dataset dataset_id params format_type true cache_file w) = Raise OSError /\
    requests (snd (get_dataset dataset_id params format_type true cache_file w))
      = requests w ++ [(url, params)] /\
    files (snd (get_dataset dataset_id params format_type true cache_file w)) = files w.
Proof.
  intros w dataset_id params format_type cache_file url fetched Habs Hurl Hreply Ht Hl.
  rewrite get_dataset_eq, (load_cache_absent _ _ _ Habs). simpl.
  unfold fetch_dataset, io_bind, lift. rewrite Hurl, make_request_eq, Hreply, Ht.
  rewrite cache_response_eq. cbn [locked send]. rewrite Hl.
  simpl. repeat split.
Qed.

Lemma X9_witness :
  files (locked_world reply_ok 4600) !! "cache.json" = None /\
  locked (locked_world reply_ok 4600) "cache.json" = true /\
  fst (get_dataset "nama_10_gdp" None "json" true "cache.json" (locked_world reply_ok 4600))
    = Raise OSError /\
  requests (snd (get_dataset "nama_10_gdp" None "json" true "cache.json"
                   (locked_world reply_ok 4600)))
    = [] ++ [(gdp_url, None)] /\
  files (snd (get_dataset "nama_10_gdp" None "json" true "cache.json"
                (locked_world reply_ok 4600))) = ∅.
Proof.
  split; [apply lookup_empty |]. split; [reflexivity |].
  apply (X9_unwritable_cache_file_loses_the_download (locked_world reply_ok 4600)
           "nama_10_gdp" None "json" "cache.json" gdp_url new_payload).
  - apply lookup_empty.
  - reflexivity.
  - reflexivity.
  - reflexivity.
  - reflexivity.
Defined.

(** X10. [get_dataset] touches no file but the cache file: every other
    path holds after the call what it held before; and without the cache
    no file changes at all. *)
Theorem X10_get_dataset_writes_only_the_cache_file :
  forall (w : World) (dataset_id : string) (params : Params) (format_type : string)
         (cache : bool) (cache_file : string),
    (forall path : string,
        path <> cache_file ->
        files (snd (get_dataset dataset_id params format_type cache cache_file w)) !! path
          = files w !! path) /\
    (cache = false ->
     files (snd (get_dataset dataset_id params format_type cache cache_file w)) = files w).
Proof.
  intros w dataset_id params format_type cache cache_file.
  assert (Hcases :
            files (snd (get_dataset dataset_id params format_type cache cache_file w))
              = files w \/
            (cache = true /\
             exists f,
               files (snd (get_dataset dataset_id params format_type cache cache_file w))
                 = <[cache_file := f]> (files w))).
  { destruct cache.
    - rewrite get_dataset_eq.
      destruct (load_cache_world w cache_file DEFAULT_TIMEOUT) as (Hf & _).
      destruct (_load_cache cache_file DEFAULT_TIMEOUT w) as [[e | cached] w']; simpl in *.
      + now left.
      + destruct (truthy cached); [now left |].
        rewrite <- Hf. apply fetch_dataset_files.
    - rewrite get_dataset_without_cache. apply fetch_dataset_files. }
  split.
  - intros path Hne. destruct Hcases as [-> | (_ & j & ->)]; [reflexivity |].
    now apply lookup_insert_ne.
  - intros ->. destruct Hcases as [H | (H & _)]; [exact H | discriminate].
Qed.

(* ===================================================================== *)
(** ** More about the decoder                                            *)
(* ===================================================================== *)

Section MoreDecoderFacts.
Context {V : Type}.
Implicit Types (tl nl gl ul : dict string) (vals : dict V).
Implicit Types (t : dict (list (Observation V))).

Lemma In_keys_append_row (x na_item : string) (row : Observation V) t :
  In x (keys (append_row na_item row t)) <-> x = na_item \/ In x (keys t).
Proof.
  unfold keys. induction t as [| [k old] t IH]; simpl.
  - intuition.
  - destruct (String.eqb_spec na_item k) as [-> | Hne]; simpl.
    + intuition.
    + rewrite IH. intuition.
Qed.

Lemma NoDup_keys_append_row (na_item : string) (row : Observation V) t :
  List.NoDup (keys t) -> List.NoDup (keys (append_row na_item row t)).
Proof.
  induction t as [| [k old] t IH]; simpl; intros Hnd.
  - constructor; [intros [] | constructor].
  - inversion Hnd as [| ? ? Hnotin Hnd']; subst.
    destruct (String.eqb_spec na_item k) as [-> | Hne]; simpl.
    + constructor; assumption.
    + constructor; [| now apply IH].
      fold (keys (append_row na_item row t)).
      rewrite In_keys_append_row. intros [Heq | Hin]; [congruence | contradiction].
Qed.

Lemma nonempty_append_row (na_item : string) (row : Observation V) t :
  Forall (fun entry => snd entry <> []) t ->
  Forall (fun entry => snd entry <> []) (append_row na_item row t).
Proof.
  induction 1 as [| [k old] t Hk Ht IH]; simpl.
  - constructor; [discriminate | constructor].
  - destruct (String.eqb na_item k).
    + constructor; [| exact Ht]. simpl. now destruct old.
    + constructor; assumption.
Qed.

(** The invariants of the table under a sequence of appends. *)
Lemma group_invariants (rows : list (string * Observation V)) :
  List.NoDup (keys (group rows [])) /\
  Forall (fun entry => snd entry <> []) (group rows []) /\
  (forall k, In k (keys (group rows [])) <-> In k (List.map fst rows)).
Proof.
  induction rows as [| r rows (Hnd & Hne & Hkeys)] using List.rev_ind.
  - split; [constructor |]. split; [constructor |]. intros k. reflexivity.
  - rewrite group_snoc. split; [now apply NoDup_keys_append_row |].
    split; [now apply nonempty_append_row |].
    intros k. rewrite In_keys_append_row, Hkeys, List.map_app, List.in_app_iff. simpl.
    intuition.
Qed.

Lemma dict_get_In_values {A : Type} (d : dict A) (k : string) (a : A) :
  dict_get k d = Some a -> In a (values d).
Proof.
  unfold values. induction d as [| [k' a'] d IH]; simpl; [discriminate |].
  destruct (String.eqb k k'); intros H; [left; congruence | right; auto].
Qed.

(** With non-empty axes, the first key that is no integer ends the loop
    with [ValueError]. *)
Lemma for_items_bad_key tl nl gl ul vals
    (st : list (Observation V) * dict (list (Observation V))) :
  tl <> [] -> nl <> [] -> gl <> [] -> ul <> [] ->
  Exists (fun kv => parse_int (fst kv) = None) vals ->
  for_items tl nl gl ul vals st = Raise ValueError.
Proof.
  intros Htl Hnl Hgl Hul Hex. revert st.
  induction vals as [| [k v] vals IH]; intros st.
  - inversion Hex.
  - simpl. destruct (parse_int k) as [i |] eqn:Hk.
    + destruct (decode_entry_total tl nl gl ul k v i Hk Htl Hnl Hgl Hul) as (r & -> & _).
      simpl. destruct r. apply IH.
      inversion Hex as [? ? Hbad | ? ? Htail]; subst; [| exact Htail].
      simpl in Hbad. congruence.
    + unfold decode_entry, int. rewrite Hk. reflexivity.
Qed.

End MoreDecoderFacts.

(** X11. The two [continue] branches of the loop are never taken: an
    iteration raises or appends a row, because a key read from [keys()]
    is always found in the dictionary. So whenever the decoder returns,
    whatever the number of geo and unit categories, the records that it
    has built, and whose serialisations it returns, are exactly one per
    key of [values], carrying its value. *)
Theorem X11_no_entry_is_ever_skipped :
  (forall (V : Type) (tl nl gl ul : dict string) (k : string) (v : V),
      decode_entry tl nl gl ul k v <> Return None) /\
  (forall (V : Type) (to_json : list (Observation V) -> string) (d : Dataset V)
          (tl nl gl ul : dict string) (vals : dict V) (returned : dict string),
      has_shape d tl nl gl ul vals ->
      process_dataset_to_json to_json (Some d) = Return (Some returned) ->
      exists t,
        indicator_table (Some d) = Return (Some t) /\
        returned = json_result to_json t /\
        length (observations t) = length vals /\
        Permutation (List.map obs_value (observations t)) (values vals)).
Proof.
  split.
  - intros V tl nl gl ul k v H.
    destruct (decode_entry_inv _ _ _ _ _ _ _ H)
      as (i & tk & time & nk & na & g & u & _ & _ & _ & _ & _ & _ & _ & _ & _ & Heq).
    discriminate Heq.
  - intros V to_json d tl nl gl ul vals returned Hs Hp.
    destruct (process_Some_inv to_json _ _ Hp) as (t & Ht & ->).
    exists t. split; [exact Ht |]. split; [reflexivity |].
    destruct (table_inv d tl nl gl ul vals t Hs Ht) as (rows & HF & ->).
    assert (Hvals : List.map obs_value (List.map snd rows) = values vals).
    { clear -HF. unfold values. induction HF as [| [k v] r vals rows Hr _ IH]; [reflexivity |].
      simpl. rewrite IH. f_equal. simpl in Hr.
      destruct (decode_entry_inv _ _ _ _ _ _ _ Hr)
        as (i & tk & time & nk & na & g & u & _ & _ & _ & _ & _ & _ & _ & _ & _ & Heq).
      injection Heq as ->. reflexivity. }
    pose proof (observations_group rows) as Hperm.
    split.
    + rewrite (Permutation_length Hperm), List.length_map.
      symmetry. exact (Forall2_length_eq _ _ _ HF).
    + rewrite <- Hvals. now apply Permutation_map.
Qed.

(** X11 on the dataset with two geographies. *)
Lemma X11_witness :
  has_shape two_geo_dataset
            [("0", "2020"); ("1", "2021")] [("0", "GDP"); ("1", "CPI")]
            [("IT", "Italy"); ("FR", "France")] [("0", "EUR")] [("0", 100); ("4", 900)] /\
  forall to_json : list (Observation Z) -> string,
  exists t,
    indicator_table (Some two_geo_dataset) = Return (Some t) /\
    [("GDP", to_json
               [ {| obs_time := "2020"; obs_geo := "IT"; obs_unit := "0"; obs_value := 100 |};
                 {| obs_time := "2020"; obs_geo := "IT"; obs_unit := "0"; obs_value := 900 |} ])]
      = json_result to_json t /\
    length (observations t) = 2%nat /\
    Permutation (List.map obs_value (observations t)) [100; 900].
Proof.
  split; [apply has_shape_dataset_of |].
  intros to_json.
  apply (proj2 X11_no_entry_is_ever_skipped Z to_json two_geo_dataset
           [("0", "2020"); ("1", "2021")] [("0", "GDP"); ("1", "CPI")]
           [("IT", "Italy"); ("FR", "France")] [("0", "EUR")] [("0", 100); ("4", 900)]).
  - apply has_shape_dataset_of.
  - reflexivity.
Defined.

(** X12. The table that the decoder has built when it returns has no
    indicator twice, no indicator with an empty list, and only indicators
    that are labels of the payload's indicator axis; the dictionary that
    it returns has the same keys, so no indicator twice and only labels
    of the indicator axis. *)
Theorem X12_table_invariants :
  forall (V : Type) (to_json : list (Observation V) -> string) (d : Dataset V)
         (tl nl gl ul : dict string) (vals : dict V) (returned : dict string),
    has_shape d tl nl gl ul vals ->
    process_dataset_to_json to_json (Some d) = Return (Some returned) ->
    exists t,
      indicator_table (Some d) = Return (Some t) /\
      returned = json_result to_json t /\
      keys returned = keys t /\
      List.NoDup (keys t) /\
      Forall (fun entry => snd entry <> []) t /\
      (forall indicator, In indicator (keys t) -> In indicator (values nl)).
Proof.
  intros V to_json d tl nl gl ul vals returned Hs Hp.
  destruct (process_Some_inv to_json _ _ Hp) as (t & Ht & ->).
  exists t. split; [exact Ht |]. split; [reflexivity |].
  split; [apply keys_json_result |].
  destruct (table_inv d tl nl gl ul vals t Hs Ht) as (rows & HF & ->).
  destruct (group_invariants rows) as (Hnd & Hne & Hkeys).
  split; [exact Hnd |]. split; [exact Hne |].
  intros indicator Hin. apply Hkeys in Hin.
  apply List.in_map_iff in Hin. destruct Hin as (r & <- & Hr).
  assert (Hsym : Forall2 (fun r kv => decode_entry tl nl gl ul (fst kv) (snd kv) = Return (Some r))
                         rows vals).
  { clear -HF. induction HF; constructor; assumption. }
  destruct (Forall2_In_left _ _ _ _ Hsym Hr) as (kv & _ & Hkv).
  destruct (decode_entry_inv _ _ _ _ _ _ _ Hkv)
    as (i & tk & time & nk & na & g & u & _ & _ & _ & _ & _ & _ & Hna & _ & _ & Heq).
  injection Heq as ->. simpl. eapply dict_get_In_values; eassumption.
Qed.

(** X12 on the scenario of the specification. *)
Lemma X12_witness :
  has_shape (scenario scenario_values)
            [("0", "2020"); ("1", "2021")] [("0", "GDP"); ("1", "CPI")]
            [("0", "IT")] [("0", "EUR")] scenario_values /\
  forall to_json : list (Observation Z) -> string,
  exists t,
    indicator_table (Some (scenario scenario_values)) = Return (Some t) /\
    [("GDP", to_json
               [ {| obs_time := "2020"; obs_geo := "0"; obs_unit := "0"; obs_value := 100 |};
                 {| obs_time := "2021"; obs_geo := "0"; obs_unit := "0"; obs_value := 200 |} ]);
     ("CPI", to_json
               [ {| obs_time := "2020"; obs_geo := "0"; obs_unit := "0"; obs_value := 5 |};
                 {| obs_time := "2021"; obs_geo := "0"; obs_unit := "0"; obs_value := 7 |} ])]
      = json_result to_json t /\
    keys [("GDP", to_json
               [ {| obs_time := "2020"; obs_geo := "0"; obs_unit := "0"; obs_value := 100 |};
                 {| obs_time := "2021"; obs_geo := "0"; obs_unit := "0"; obs_value := 200 |} ]);
          ("CPI", to_json
               [ {| obs_time := "2020"; obs_geo := "0"; obs_unit := "0"; obs_value := 5 |};
                 {| obs_time := "2021"; obs_geo := "0"; obs_unit := "0"; obs_value := 7 |} ])]
      = keys t /\
    List.NoDup (keys t) /\
    Forall (fun entry => snd entry <> []) t /\
    (forall indicator, In indicator (keys t) ->
                       In indicator (values [("0", "GDP"); ("1", "CPI")])).
Proof.
  split; [apply has_shape_dataset_of |].
  intros to_json.
  apply (X12_table_invariants Z to_json (scenario scenario_values)
           [("0", "2020"); ("1", "2021")] [("0", "GDP"); ("1", "CPI")]
           [("0", "IT")] [("0", "EUR")] scenario_values).
  - apply has_shape_dataset_of.
  - reflexivity.
Defined.

(** X13. A plain key of [values] (ASCII, at most 4300 characters) that is
    no integer makes the whole decode fail: nothing is returned, and when
    every axis has a category the exception is [ValueError], at whatever
    place of the mapping the key stands. *)
Theorem X13_non_integer_key_raises_ValueError :
  forall (V : Type) (to_json : list (Observation V) -> string) (d : Dataset V)
         (tl nl gl ul : dict string) (vals : dict V),
    has_shape d tl nl gl ul vals ->
    Exists (fun kv => plain_key (fst kv) /\ parse_int (fst kv) = None) vals ->
    (forall returned, process_dataset_to_json to_json (Some d) <> Return (Some returned)) /\
    (tl <> [] -> nl <> [] -> gl <> [] -> ul <> [] ->
     process_dataset_to_json to_json (Some d) = Raise ValueError).
Proof.
  intros V to_json d tl nl gl ul vals Hs Hplain.
  assert (Hex : Exists (fun kv => parse_int (fst kv) = None) vals).
  { apply List.Exists_exists in Hplain. destruct Hplain as (kv & Hin & _ & Hbad).
    apply List.Exists_exists. eauto. }
  split.
  - intros returned Hp.
    destruct (process_Some_inv to_json _ _ Hp) as (t & Ht & _).
    destruct (table_inv d tl nl gl ul vals t Hs Ht) as (rows & HF & _).
    apply List.Exists_exists in Hex. destruct Hex as (kv & Hin & Hbad).
    destruct (Forall2_In_left _ _ _ _ HF Hin) as (r & _ & Hdec).
    destruct (decode_entry_inv _ _ _ _ _ _ _ Hdec)
      as (i & tk & time & nk & na & g & u & Hk & _).
    congruence.
  - intros Htl Hnl Hgl Hul.
    apply process_raises.
    rewrite (table_shape d tl nl gl ul vals Hs).
    now rewrite (for_items_bad_key tl nl gl ul vals ([], []) Htl Hnl Hgl Hul Hex).
Qed.

(** X13 on the scenario with the key ["1.0"]. *)
Lemma X13_witness :
  has_shape (scenario [("0", 100); ("1.0", 200)])
            [("0", "2020"); ("1", "2021")] [("0", "GDP"); ("1", "CPI")]
            [("0", "IT")] [("0", "EUR")] [("0", 100); ("1.0", 200)] /\
  plain_key "1.0" /\
  parse_int "1.0" = None /\
  forall to_json : list (Observation Z) -> string,
    process_dataset_to_json to_json (Some (scenario [("0", 100); ("1.0", 200)]))
      = Raise ValueError.
Proof.
  assert (Hplain : plain_key "1.0") by (split; [reflexivity | simpl; lia]).
  split; [apply has_shape_dataset_of |]. split; [exact Hplain |]. split; [reflexivity |].
  intros to_json.
  assert (Hex : Exists (fun kv : string * Z => plain_key (fst kv) /\ parse_int (fst kv) = None)
                       [("0", 100); ("1.0", 200)]).
  { right. left. split; [exact Hplain | reflexivity]. }
  apply (proj2 (X13_non_integer_key_raises_ValueError Z to_json
                  (scenario [("0", 100); ("1.0", 200)])
                  [("0", "2020"); ("1", "2021")] [("0", "GDP"); ("1", "CPI")]
                  [("0", "IT")] [("0", "EUR")] [("0", 100); ("1.0", 200)]
                  (has_shape_dataset_of _ _ _ _ _) Hex));
    discriminate.
Defined.

(** X14. Every record that the decoder has built when it returns has the
    same geo and the same unit field: the first category key of the geo
    axis and the first category key of the unit axis, whatever the linear
    index and however many categories the two axes have. *)
Theorem X14_geo_and_unit_are_the_first_category_keys :
  forall (V : Type) (to_json : list (Observation V) -> string) (d : Dataset V)
         (tl nl gl ul : dict string) (vals : dict V) (returned : dict string),
    has_shape d tl nl gl ul vals ->
    process_dataset_to_json to_json (Some d) = Return (Some returned) ->
    exists t,
      indicator_table (Some d) = Return (Some t) /\
      returned = json_result to_json t /\
      forall row : Observation V,
        In row (observations t) ->
        key_at gl 0 = Some (obs_geo row) /\ key_at ul 0 = Some (obs_unit row).
Proof.
  intros V to_json d tl nl gl ul vals returned Hs Hp.
  destruct (process_Some_inv to_json _ _ Hp) as (t & Ht & ->).
  exists t. split; [exact Ht |]. split; [reflexivity |].
  intros row Hin.
  exact (observations_carry_first_keys d tl nl gl ul vals t row Hs Ht Hin).
Qed.

(** X14 on the dataset with two geographies. *)
Lemma X14_witness :
  has_shape two_geo_dataset
            [("0", "2020"); ("1", "2021")] [("0", "GDP"); ("1", "CPI")]
            [("IT", "Italy"); ("FR", "France")] [("0", "EUR")] [("0", 100); ("4", 900)] /\
  forall to_json : list (Observation Z) -> string,
  exists t,
    indicator_table (Some two_geo_dataset) = Return (Some t) /\
    [("GDP", to_json
               [ {| obs_time := "2020"; obs_geo := "IT"; obs_unit := "0"; obs_value := 100 |};
                 {| obs_time := "2020"; obs_geo := "IT"; obs_unit := "0"; obs_value := 900 |} ])]
      = json_result to_json t /\
    forall row : Observation Z,
      In row (observations t) ->
      key_at [("IT", "Italy"); ("FR", "France")] 0 = Some (obs_geo row) /\
      key_at [("0", "EUR")] 0 = Some (obs_unit row).
Proof.
  split; [apply has_shape_dataset_of |].
  intros to_json.
  apply (X14_geo_and_unit_are_the_first_category_keys Z to_json two_geo_dataset
           [("0", "2020"); ("1", "2021")] [("0", "GDP"); ("1", "CPI")]
           [("IT", "Italy"); ("FR", "France")] [("0", "EUR")] [("0", 100); ("4", 900)]).
  - apply has_shape_dataset_of.
  - reflexivity.
Defined.

(** X15. The decoder reads only the time and indicator positions off a
    linear index: two indices that differ by a multiple of
    [len(time) * len(indicator)] give the same indicator and the same
    time, geo and unit fields. So the values of a second geography or
    unit land in the lists of the first, indistinguishable from them but
    for the value. *)
Theorem X15_indices_are_read_modulo_time_times_indicator :
  forall (V : Type) (tl nl gl ul : dict string) (k1 k2 : string) (v1 v2 : V)
         (i m : Z) (indicator : string) (row : Observation V),
    parse_int k1 = Some i ->
    parse_int k2 = Some (i + m * (len tl * len nl)) ->
    decode_entry tl nl gl ul k1 v1 = Return (Some (indicator, row)) ->
    decode_entry tl nl gl ul k2 v2
      = Return (Some (indicator,
                      {| obs_time := obs_time row; obs_geo := obs_geo row;
                         obs_unit := obs_unit row; obs_value := v2 |})).
Proof.
  intros V tl nl gl ul k1 k2 v1 v2 i m indicator row Hk1 Hk2 Hdec.
  destruct (decode_entry_inv _ _ _ _ _ _ _ Hdec)
    as (i' & tk & time & nk & na & g & u & Hk1' & Htl & Hnl & Htk & Htime & Hnk & Hna
        & Hg & Hu & Heq).
  assert (i' = i) by congruence. subst i'.
  injection Heq as -> ->. simpl.
  destruct (decode_entry_eq tl nl gl ul k2 v2 _ Hk2 Htl Hnl)
    as (tk2 & time2 & nk2 & na2 & Htk2 & Htime2 & Hnk2 & Hna2 & ->).
  assert (HT : len tl <> 0) by (rewrite len_zero_iff; exact Htl).
  assert (Hpos1 : (i + m * (len tl * len nl)) mod len tl = i mod len tl).
  { replace (m * (len tl * len nl)) with (m * len nl * len tl) by ring.
    apply Z_mod_plus_full. }
  assert (Hpos2 : ((i + m * (len tl * len nl)) / len tl) mod len nl
                  = (i / len tl) mod len nl).
  { replace (m * (len tl * len nl)) with (m * len nl * len tl) by ring.
    rewrite Z_div_plus_full by exact HT. apply Z_mod_plus_full. }
  rewrite Hpos1 in Htk2. rewrite Hpos2 in Hnk2.
  assert (tk2 = tk) by congruence. assert (nk2 = nk) by congruence. subst tk2 nk2.
  assert (time2 = time) by congruence. assert (na2 = na) by congruence. subst time2 na2.
  unfold key_at in Hg, Hu. simpl in Hg, Hu.
  unfold list_getitem. simpl. rewrite Hg, Hu. reflexivity.
Qed.

(** X15 on the dataset with two geographies: index 4 is the first value
    of France, and is decoded like index 0, the first value of Italy. *)
Lemma X15_witness :
  parse_int "0" = Some 0 /\
  parse_int "4" = Some (0 + 1 * (len [("0", "2020"); ("1", "2021")]
                                 * len [("0", "GDP"); ("1", "CPI")])) /\
  decode_entry [("0", "2020"); ("1", "2021")] [("0", "GDP"); ("1", "CPI")]
               [("IT", "Italy"); ("FR", "France")] [("0", "EUR")] "4" 900
    = Return (Some ("GDP", {| obs_time := "2020"; obs_geo := "IT";
                               obs_unit := "0"; obs_value := 900 |})).
Proof.
  split; [reflexivity |]. split; [reflexivity |].
  apply (X15_indices_are_read_modulo_time_times_indicator Z
           [("0", "2020"); ("1", "2021")] [("0", "GDP"); ("1", "CPI")]
           [("IT", "Italy"); ("FR", "France")] [("0", "EUR")] "0" "4" 100 900 0 1 "GDP"
           {| obs_time := "2020"; obs_geo := "IT"; obs_unit := "0"; obs_value := 100 |});
    reflexivity.
Defined.

(* ===================================================================== *)
(** ** More about the filters of [generate_data]                         *)
(* ===================================================================== *)

Lemma str_in_In (x : string) (l : list string) : str_in x l = true <-> In x l.
Proof.
  unfold str_in. rewrite List.existsb_exists. split.
  - intros (y & Hy & Heq). apply String.eqb_eq in Heq. now subst.
  - intros Hin. exists x. split; [exact Hin | apply String.eqb_refl].
Qed.

Lemma filter_idempotent {A : Type} (p : A -> bool) (l : list A) :
  List.filter p (List.filter p l) = List.filter p l.
Proof.
  induction l as [| a l IH]; simpl; [reflexivity |].
  destruct (p a) eqn:E; simpl; [rewrite E, IH |]; auto.
Qed.

Lemma filter_indicators_idempotent {V : Type} (indicators : option (list string))
    (t : dict (list (Observation V))) :
  filter_indicators indicators (filter_indicators indicators t)
    = filter_indicators indicators t.
Proof.
  destruct indicators as [[| i irest] |]; simpl; try reflexivity.
  apply filter_idempotent.
Qed.

Lemma filter_time_range_idempotent {V : Type} (time_range : option (list string))
    (t : dict (list (Observation V))) :
  filter_time_range time_range (filter_time_range time_range t)
    = filter_time_range time_range t.
Proof.
  destruct time_range as [[| s srest] |]; simpl; try reflexivity.
  rewrite List.map_map. apply List.map_ext. intros [k rows]. simpl.
  now rewrite filter_idempotent.
Qed.

Lemma filters_commute {V : Type} (indicators time_range : option (list string))
    (t : dict (list (Observation V))) :
  filter_time_range time_range (filter_indicators indicators t)
    = filter_indicators indicators (filter_time_range time_range t).
Proof.
  destruct indicators as [[| i irest] |]; destruct time_range as [[| s srest] |];
    try reflexivity.
  unfold filter_indicators, filter_time_range.
  apply (map_filter_by_key (fun k => str_in k (i :: irest))
           (List.filter (fun data => str_in (obs_time data) (s :: srest)))).
Qed.

(** X16. The indicator filter keeps exactly the entries of the table whose
    indicator is in the requested list, unchanged; with no list, or an
    empty one, it keeps every entry. *)
Theorem X16_indicator_filter_keeps_exactly_the_requested :
  forall (V : Type) (indicators : option (list string)) (t : dict (list (Observation V)))
         (k : string) (rows : list (Observation V)),
    In (k, rows) (filter_indicators indicators t) <->
    In (k, rows) t /\
    match indicators with
    | Some (i :: rest) => In k (i :: rest)
    | _ => True
    end.
Proof.
  intros V indicators t k rows.
  destruct indicators as [[| i irest] |]; [simpl; tauto | | simpl; tauto].
  unfold filter_indicators. rewrite List.filter_In. cbn [fst].
  rewrite str_in_In. tauto.
Qed.

(** X17. The time filter removes no indicator: the keys of the table stay
    as they are, in order, so an indicator with no observation in the
    range is returned with an empty list. Of each indicator it keeps
    exactly the observations whose time label is in the requested list. *)
Theorem X17_time_filter_keeps_every_indicator :
  forall (V : Type) (time_range : option (list string)) (t : dict (list (Observation V))),
    keys (filter_time_range time_range t) = keys t /\
    Forall2 (fun kept original =>
               forall data : Observation V,
                 In data (snd kept) <->
                 In data (snd original) /\
                 match time_range with
                 | Some (s :: rest) => In (obs_time data) (s :: rest)
                 | _ => True
                 end)
            (filter_time_range time_range t) t.
Proof.
  intros V time_range t.
  destruct time_range as [[| s srest] |].
  - simpl. split; [reflexivity |]. induction t; constructor; [tauto | assumption].
  - unfold filter_time_range. split.
    + unfold keys. rewrite List.map_map. reflexivity.
    + induction t as [| [k rows] t IH]; cbn [List.map]; constructor; [| exact IH].
      cbn [fst snd]. intros data. rewrite List.filter_In, str_in_In. tauto.
  - simpl. split; [reflexivity |]. induction t; constructor; [tauto | assumption].
Qed.

(** X18. The post-processing of [generate_data] is idempotent: filtering
    the filtered table again, by the same indicators and the same time
    labels, changes nothing. *)
Theorem X18_post_processing_is_idempotent :
  forall (V : Type) (indicators time_range : option (list string))
         (t : dict (list (Observation V))),
    post_process indicators time_range (post_process indicators time_range t)
      = post_process indicators time_range t.
Proof.
  intros V indicators time_range t. unfold post_process.
  rewrite <- (filters_commute indicators time_range (filter_indicators indicators t)).
  now rewrite filter_indicators_idempotent, filter_time_range_idempotent.
Qed.

(* ===================================================================== *)
(** ** The endpoints [get_indicators] and [get_dataset_parameters]       *)
(* ===================================================================== *)

Lemma get_dataset_no_cache_eq (w : World) (dataset_id : string) (params : Params)
    (format_type cache_file url : string) :
  request_url format_type dataset_id = Return url ->
  get_dataset dataset_id params format_type false cache_file w
    = (Return (match request_attempt (network w (length (requests w))) with
               | Return body => if truthy body then body else JNull
               | Raise _ => JNull
               end),
       send url params w).
Proof.
  intros Hurl. rewrite get_dataset_without_cache.
  unfold fetch_dataset, io_bind, lift. rewrite Hurl, make_request_eq.
  destruct (request_attempt (network w (length (requests w)))) as [e | body]; [reflexivity |].
  destruct (truthy body); reflexivity.
Qed.

Lemma get_indicators_eq (dataset_id : string) (w : World) :
  get_indicators dataset_id w =
    (indicators_of (match request_attempt (network w (length (requests w))) with
                    | Return body => if truthy body then body else JNull
                    | Raise _ => JNull
                    end),
     send (BASE_URL_JSON ++ dataset_id)%string None w).
Proof.
  unfold get_indicators, io_bind.
  rewrite (get_dataset_no_cache_eq w dataset_id None "json" "cache.json" _ eq_refl).
  reflexivity.
Qed.

Lemma get_dataset_parameters_eq (dataset_id : string) (w : World) :
  get_dataset_parameters dataset_id w =
    (match request_attempt (network w (length (requests w))) with
     | Return body =>
         if truthy body then parameters_of body
         else Return (error_object "Dataset non trovato")
     | Raise _ => Return (error_object "Dataset non trovato")
     end,
     send (BASE_URL_JSON ++ dataset_id)%string None w).
Proof.
  unfold get_dataset_parameters, io_bind.
  rewrite (get_dataset_no_cache_eq w dataset_id None "json" "cache.json" _ eq_refl).
  destruct (request_attempt (network w (length (requests w)))) as [e | body]; [reflexivity |].
  destruct (truthy body) eqn:Ht; [| reflexivity].
  cbv beta iota zeta. rewrite Ht. reflexivity.
Qed.

Lemma existsb_dict_get {A : Type} (k : string) (members : dict A) :
  List.existsb (fun kv => String.eqb k (fst kv)) members =
    match dict_get k members with
    | Some _ => true
    | None => false
    end.
Proof.
  induction members as [| [k' a] members IH]; simpl; [reflexivity |].
  destruct (String.eqb k k'); [reflexivity | exact IH].
Qed.

Lemma axis_options_state (dimensions : list (string * json)) (axis : string)
    (labels : option json) :
  axis_state dimensions axis labels ->
  axis_options (JObj dimensions) axis = Return (labels_or_empty labels).
Proof.
  unfold axis_state, axis_options. simpl. rewrite existsb_dict_get.
  destruct labels as [l |]; intros H.
  - destruct (dict_get axis dimensions) eqn:E; [exact H |].
    unfold category_label in H. simpl in H. unfold dict_getitem in H. rewrite E in H.
    discriminate H.
  - rewrite H. reflexivity.
Qed.

(** X19. [get_indicators] never answers "Dataset non trovato": the test
    [if not dataset] is made on the dictionary [{"data": dataset}], which
    is never empty. When the request fails, the endpoint raises
    [TypeError] from ['dimension' in None] instead. *)
Theorem X19_get_indicators_never_reports_a_missing_dataset :
  forall (w : World) (dataset_id : string),
    fst (get_indicators dataset_id w) <> Return (error_object "Dataset non trovato") /\
    (fetch_fails (network w (length (requests w))) = true ->
     fst (get_indicators dataset_id w) = Raise TypeError).
Proof.
  intros w dataset_id. rewrite get_indicators_eq. simpl. split.
  - generalize (match request_attempt (network w (length (requests w))) with
                | Return body => if truthy body then body else JNull
                | Raise _ => JNull
                end).
    intros data. unfold indicators_of.
    destruct (py_contains "dimension" data) as [e | [|]]; simpl; try discriminate.
    destruct (json_getitem data "dimension") as [e | dims]; simpl; try discriminate.
    destruct (py_contains "na_item" dims) as [e | [|]]; simpl; try discriminate.
    destruct (category_label dims "na_item"); simpl; discriminate.
  - unfold fetch_fails.
    destruct (request_attempt (network w (length (requests w)))); [reflexivity | discriminate].
Qed.

(** X20. [get_dataset_parameters], which tests the dataset before it wraps
    it, does answer "Dataset non trovato" when the request fails, without
    raising; on a payload that is an object with no [dimension] member it
    raises [KeyError]. *)
Theorem X20_get_dataset_parameters_reports_a_missing_dataset :
  forall (w : World) (dataset_id : string),
    (fetch_fails (network w (length (requests w))) = true ->
     get_dataset_parameters dataset_id w
       = (Return (error_object "Dataset non trovato"),
          send (BASE_URL_JSON ++ dataset_id)%string None w)) /\
    (forall members : list (string * json),
        request_attempt (network w (length (requests w))) = Return (JObj members) ->
        members <> [] ->
        dict_get "dimension" members = None ->
        fst (get_dataset_parameters dataset_id w) = Raise (KeyError "dimension")).
Proof.
  intros w dataset_id. rewrite get_dataset_parameters_eq. split.
  - unfold fetch_fails.
    destruct (request_attempt (network w (length (requests w)))); [reflexivity | discriminate].
  - intros members -> Hne Hdim.
    assert (Ht : truthy (JObj members) = true)
      by (destruct members; [congruence | reflexivity]).
    rewrite Ht. cbn [fst]. unfold parameters_of.
    cbn [json_getitem]. unfold dict_getitem. rewrite Hdim. reflexivity.
Qed.

(** X21. On a payload that is a non-empty object, [get_indicators]
    answers with the label dictionary of the indicator axis when the
    payload has [dimension.na_item.category.label], and with the error
    "Dimensioni non trovate nel dataset" when it has no [dimension] or
    its [dimension] has no [na_item]. *)
Theorem X21_get_indicators_on_a_payload :
  forall (w : World) (dataset_id : string) (members : list (string * json)),
    request_attempt (network w (length (requests w))) = Return (JObj members) ->
    members <> [] ->
    (dict_get "dimension" members = None ->
     fst (get_indicators dataset_id w)
       = Return (error_object "Dimensioni non trovate nel dataset")) /\
    (forall dimensions : list (string * json),
        dict_get "dimension" members = Some (JObj dimensions) ->
        dict_get "na_item" dimensions = None ->
        fst (get_indicators dataset_id w)
          = Return (error_object "Dimensioni non trovate nel dataset")) /\
    (forall (dimensions : list (string * json)) (labels : json),
        dict_get "dimension" members = Some (JObj dimensions) ->
        category_label (JObj dimensions) "na_item" = Return labels ->
        fst (get_indicators dataset_id w) = Return (JObj [("indicators", labels)])).
Proof.
  intros w dataset_id members Hreply Hne.
  rewrite get_indicators_eq, Hreply.
  assert (Ht : truthy (JObj members) = true) by (destruct members; [congruence | reflexivity]).
  rewrite Ht. cbn [fst]. unfold indicators_of.
  cbn [py_contains json_getitem]. rewrite existsb_dict_get. unfold dict_getitem.
  split; [| split].
  - intros ->. reflexivity.
  - intros dimensions -> Hna. cbn [bind py_contains].
    rewrite existsb_dict_get, Hna. reflexivity.
  - intros dimensions labels -> Hlab. cbn [bind py_contains].
    rewrite existsb_dict_get.
    destruct (dict_get "na_item" dimensions) eqn:E.
    + cbn [bind]. rewrite Hlab. reflexivity.
    + unfold category_label in Hlab. cbn [json_getitem] in Hlab.
      unfold dict_getitem in Hlab. rewrite E in Hlab. discriminate Hlab.
Qed.

Lemma X21_witness :
  request_attempt reply_stat = Return stat_payload /\
  fst (get_indicators "nama_10_gdp" (sample_world None reply_stat 0))
    = Return (JObj [("indicators", JObj [("B1GQ", JStr "GDP")])]).
Proof.
  split; [reflexivity |].
  refine (proj2 (proj2 (X21_get_indicators_on_a_payload (sample_world None reply_stat 0)
                          "nama_10_gdp" _ eq_refl _)) _ _ eq_refl eq_refl).
  discriminate.
Defined.

(** X22. On a payload that is a non-empty object with a [dimension]
    object, [get_dataset_parameters] answers, for each of geo, unit and
    time, the label dictionary of the axis when the axis is there and the
    empty dictionary when it is not; an absent axis is no error. *)
Theorem X22_get_dataset_parameters_defaults_to_empty :
  forall (w : World) (dataset_id : string) (members dimensions : list (string * json))
         (geo unit time : option json),
    request_attempt (network w (length (requests w))) = Return (JObj members) ->
    members <> [] ->
    dict_get "dimension" members = Some (JObj dimensions) ->
    axis_state dimensions "geo" geo ->
    axis_state dimensions "unit" unit ->
    axis_state dimensions "time" time ->
    fst (get_dataset_parameters dataset_id w)
      = Return (JObj [("geo_options", labels_or_empty geo);
                      ("unit_options", labels_or_empty unit);
                      ("time_options", labels_or_empty time)]).
Proof.
  intros w dataset_id members dimensions geo unit time Hreply Hne Hdim Hg Hu Ht.
  rewrite get_dataset_parameters_eq, Hreply.
  assert (Htr : truthy (JObj members) = true) by (destruct members; [congruence | reflexivity]).
  rewrite Htr. cbn [fst]. unfold parameters_of.
  cbn [json_getitem]. unfold dict_getitem. rewrite Hdim. cbn [bind].
  rewrite (axis_options_state _ _ _ Hg), (axis_options_state _ _ _ Hu),
    (axis_options_state _ _ _ Ht).
  reflexivity.
Qed.

Lemma X22_witness :
  request_attempt reply_stat = Return stat_payload /\
  fst (get_dataset_parameters "nama_10_gdp" (sample_world None reply_stat 0))
    = Return (JObj [("geo_options", JObj [("IT", JStr "Italy")]);
                    ("unit_options", JObj []);
                    ("time_options", JObj [])]).
Proof.
  split; [reflexivity |].
  refine (X22_get_dataset_parameters_defaults_to_empty (sample_world None reply_stat 0)
            "nama_10_gdp" _ _ (Some (JObj [("IT", JStr "Italy")])) None None
            eq_refl _ eq_refl eq_refl eq_refl eq_refl).
  discriminate.
Defined.

(* ===================================================================== *)
(** ** The ticker list: facts                                            *)
(* ===================================================================== *)

Lemma length_split_on (sep : ascii) (s : list ascii) :
  length (split_on sep s) = S (List.count_occ ascii_dec s sep).
Proof.
  induction s as [| c s IH]; simpl; [reflexivity |].
  destruct (Ascii.eqb_spec c sep) as [-> | Hne].
  - destruct (ascii_dec sep sep); [| congruence]. simpl. now rewrite IH.
  - destruct (ascii_dec c sep); [congruence |].
    destruct (split_on sep s) as [| part parts]; [discriminate IH | exact IH].
Qed.

Lemma split_on_no_separator (sep : ascii) (s : list ascii) :
  Forall (fun part => ~ In sep part) (split_on sep s).
Proof.
  induction s as [| c s IH]; simpl.
  - constructor; [intros [] | constructor].
  - destruct (Ascii.eqb_spec c sep) as [-> | Hne].
    + constructor; [intros [] | exact IH].
    + destruct (split_on sep s) as [| part parts].
      * constructor; [| constructor]. intros [H | []]. congruence.
      * inversion IH as [| ? ? Hpart Hparts]; subst.
        constructor; [| exact Hparts]. intros [H | H]; [congruence | contradiction].
Qed.

Lemma lstrip_head (s : list ascii) (c : ascii) (rest : list ascii) :
  lstrip s = c :: rest -> is_space c = false.
Proof.
  induction s as [| a s IH]; simpl; [discriminate |].
  destruct (is_space a) eqn:E; [exact IH |].
  intros H. injection H as <- _. exact E.
Qed.

Lemma In_lstrip (s : list ascii) (c : ascii) : In c (lstrip s) -> In c s.
Proof.
  induction s as [| a s IH]; simpl; [tauto |].
  destruct (is_space a); [intros H; right; auto | simpl; tauto].
Qed.

Lemma lstrip_snoc (s : list ascii) (c : ascii) :
  is_space c = false -> exists front, lstrip (s ++ [c]) = front ++ [c].
Proof.
  intros Hc. induction s as [| a s (front & IH)]; simpl.
  - rewrite Hc. now exists [].
  - destruct (is_space a); [exists front; exact IH |].
    now exists (a :: s).
Qed.

Lemma In_strip (s : list ascii) (c : ascii) : In c (strip s) -> In c s.
Proof.
  unfold strip. intros H. apply List.in_rev in H.
  apply In_lstrip in H. apply List.in_rev in H. now apply In_lstrip in H.
Qed.

Lemma strip_last (s front : list ascii) (c : ascii) :
  strip s = front ++ [c] -> is_space c = false.
Proof.
  unfold strip. intros H.
  apply (f_equal (@List.rev ascii)) in H.
  rewrite List.rev_involutive, List.rev_app_distr in H. simpl in H.
  eapply lstrip_head; eassumption.
Qed.

Lemma strip_first (s rest : list ascii) (c : ascii) :
  strip s = c :: rest -> is_space c = false.
Proof.
  unfold strip. destruct (lstrip s) as [| c0 l0] eqn:E; [discriminate |].
  pose proof (lstrip_head s c0 l0 E) as Hc0.
  simpl. destruct (lstrip_snoc (List.rev l0) c0 Hc0) as (front & ->).
  rewrite List.rev_app_distr. simpl. intros H. injection H as <- _. exact Hc0.
Qed.

Lemma stripped_is_trimmed (part : list ascii) :
  ~ In TAB part -> trimmed (stripped part).
Proof.
  intros Hno. unfold trimmed, stripped.
  rewrite list_ascii_of_string_of_list_ascii.
  split; [| split].
  - intros c rest. apply strip_first.
  - intros c front. apply strip_last.
  - intros H. apply Hno. now apply In_strip.
Qed.

Lemma extract_line_Some_iff (line : string) :
  (exists company_data, extract_line line = Some company_data) <-> (4 <= count_tabs line)%nat.
Proof.
  unfold extract_line, count_tabs.
  pose proof (length_split_on TAB (list_ascii_of_string line)) as Hlen.
  destruct (split_on TAB (list_ascii_of_string line)) as [| p0 [| p1 [| p2 [| p3 [| p4 ps]]]]];
    simpl in Hlen; split; intros H; try lia; try (destruct H as (? & H); discriminate H).
  eauto.
Qed.

Lemma extract_line_trimmed (line : string) (company_data : CompanyData) :
  extract_line line = Some company_data -> Forall trimmed (fields company_data).
Proof.
  unfold extract_line.
  pose proof (split_on_no_separator TAB (list_ascii_of_string line)) as Hno.
  destruct (split_on TAB (list_ascii_of_string line)) as [| p0 [| p1 [| p2 [| p3 [| p4 ps]]]]];
    try discriminate.
  intros H. injection H as <-.
  inversion Hno as [| ? ? H0 Hno1]; subst. inversion Hno1 as [| ? ? H1 Hno2]; subst.
  inversion Hno2 as [| ? ? H2 Hno3]; subst. inversion Hno3 as [| ? ? H3 Hno4]; subst.
  inversion Hno4 as [| ? ? H4 _]; subst.
  unfold fields. simpl.
  repeat constructor; now apply stripped_is_trimmed.
Qed.

Lemma extract_line_eq (line : string) :
  extract_line line
    = if Nat.leb 4 (count_tabs line) then Some (company_of_line line) else None.
Proof.
  unfold extract_line, company_of_line, part_at, count_tabs.
  pose proof (length_split_on TAB (list_ascii_of_string line)) as Hlen.
  destruct (split_on TAB (list_ascii_of_string line)) as [| p0 [| p1 [| p2 [| p3 [| p4 ps]]]]];
    simpl in Hlen; try discriminate Hlen; injection Hlen as Hlen; rewrite <- Hlen; reflexivity.
Qed.

Lemma join_split_on (sep : ascii) (s : list ascii) : join sep (split_on sep s) = s.
Proof.
  induction s as [| c s IH]; [reflexivity |].
  cbn [split_on]. destruct (Ascii.eqb_spec c sep) as [-> | Hne].
  - destruct (split_on sep s) as [| part parts] eqn:E.
    + pose proof (length_split_on sep s) as Hlen. rewrite E in Hlen. discriminate Hlen.
    + cbn [join app]. cbn [join] in IH. now rewrite IH.
  - destruct (split_on sep s) as [| part parts] eqn:E.
    + pose proof (length_split_on sep s) as Hlen. rewrite E in Hlen. discriminate Hlen.
    + destruct parts as [| part' parts]; cbn [join app] in *; now rewrite IH.
Qed.

(** X23. [extract_data_from_file] on ASCII lines: the result is, in the
    order of the lines, the dictionary of every line with at least four
    tab characters, the other lines being skipped; the dictionary of a
    line holds its first five parts, stripped, where the parts of a line
    are the pieces between its tabs (joined with tabs they give the line
    back, and none holds a tab); every field of every dictionary is
    trimmed (it neither begins nor ends with whitespace) and holds no
    tab; and when the file cannot be read the result is the empty
    list. *)
Theorem X23_extract_data_from_file :
  (forall e : exn, extract_data_from_file (Raise e) = []) /\
  (forall lines : list string,
      Forall (fun line => isascii line = true) lines ->
      extract_data_from_file (Return lines)
        = List.map company_of_line
            (List.filter (fun line => Nat.leb 4 (count_tabs line)) lines) /\
      forall company_data,
        In company_data (extract_data_from_file (Return lines)) ->
        Forall trimmed (fields company_data)) /\
  (forall line : string,
      join TAB (split_on TAB (list_ascii_of_string line)) = list_ascii_of_string line /\
      Forall (fun part => ~ In TAB part) (split_on TAB (list_ascii_of_string line))).
Proof.
  split; [reflexivity |]. split.
  - intros lines _. split.
    + unfold extract_data_from_file.
      induction lines as [| line lines IH]; [reflexivity |].
      cbn [List.flat_map List.filter]. rewrite IH, extract_line_eq.
      destruct (Nat.leb 4 (count_tabs line)); reflexivity.
    + intros company_data Hin. simpl in Hin.
      apply List.in_flat_map in Hin. destruct Hin as (line & _ & Hin).
      destruct (extract_line line) as [cd |] eqn:E; [| destruct Hin].
      destruct Hin as [<- | []]. now apply (extract_line_trimmed line).
  - intros line. split; [apply join_split_on | apply split_on_no_separator].
Qed.

(** X23 on a line of five parts followed by a line without tabs. *)
Lemma X23_witness :
  Forall (fun line => isascii line = true) [apple_line; "no tabs here"] /\
  extract_data_from_file (Return [apple_line; "no tabs here"])
    = [ {| ticker := "AAPL"; company_name := "Apple Inc."; sector := "Technology";
           market_cap := "3T"; revenue := "400B" |} ] /\
  Forall trimmed
    (fields {| ticker := "AAPL"; company_name := "Apple Inc."; sector := "Technology";
               market_cap := "3T"; revenue := "400B" |}).
Proof.
  assert (Hascii : Forall (fun line => isascii line = true) [apple_line; "no tabs here"])
    by (repeat constructor).
  split; [exact Hascii |].
  destruct (proj1 (proj2 X23_extract_data_from_file) [apple_line; "no tabs here"] Hascii)
    as (Heq & Htrim).
  split; [exact Heq |].
  apply Htrim. left. reflexivity.
Defined.

Lemma ticker_entries_objects (objects : list (list (string * json))) :
  ticker_entries (List.map JObj objects)
    = Some (List.map entry_of_object (List.filter has_ticker objects)).
Proof.
  induction objects as [| members objects IH]; [reflexivity |].
  cbn [List.map ticker_entries List.filter]. rewrite IH.
  unfold ticker_entry, has_ticker. cbn [py_contains]. rewrite existsb_dict_get.
  destruct (dict_get "ticker" members); reflexivity.
Qed.

Lemma ticker_entries_not_iterable (items : list json) :
  Exists not_iterable items -> ticker_entries items = None.
Proof.
  induction 1 as [item items Hbad | item items _ IH]; cbn [ticker_entries].
  - destruct item; try contradiction; reflexivity.
  - rewrite IH. destruct (ticker_entry item); reflexivity.
Qed.

(** X24. [get_tickers] on an array of objects returns one dictionary for
    every object that has the key ['ticker'], in order, with ['N/A'] for
    each of company_name, sector and market_cap that the object lacks.
    One element that is [null], a number or a boolean makes it return
    the empty list, whatever the other elements are; so does a file that
    cannot be read or parsed. *)
Theorem X24_get_tickers :
  (forall objects : list (list (string * json)),
      get_tickers (Return (JArr (List.map JObj objects)))
        = List.map entry_of_object (List.filter has_ticker objects)) /\
  (forall items : list json,
      Exists not_iterable items -> get_tickers (Return (JArr items)) = []) /\
  (forall e : exn, get_tickers (Raise e) = []).
Proof.
  split; [| split].
  - intros objects. unfold get_tickers. cbn [py_iter].
    now rewrite ticker_entries_objects.
  - intros items Hbad. unfold get_tickers. cbn [py_iter].
    now rewrite (ticker_entries_not_iterable items Hbad).
  - reflexivity.
Qed.

Lemma X24_witness :
  get_tickers (Return (JArr [JObj apple_object; JObj [("name", JStr "no ticker")]]))
    = [ {| t_ticker := JStr "AAPL"; t_company_name := JStr "N/A";
           t_sector := JStr "Technology"; t_market_cap := JStr "N/A" |} ] /\
  get_tickers (Return (JArr [JObj apple_object; JNull])) = [].
Proof.
  split.
  - exact (proj1 X24_get_tickers [apple_object; [("name", JStr "no ticker")]]).
  - apply (proj1 (proj2 X24_get_tickers)). right. left. exact I.
Defined.

(* ===================================================================== *)
(** ** The indicator descriptions and the dispatch: facts                *)
(* ===================================================================== *)

Lemma load_file_status (file_path : string) (w : World) :
  load_file file_path w <> Crashed /\
  (forall status_code, load_file file_path w = HTTPException status_code ->
                       status_code = 404 \/ status_code = 500) /\
  (load_file file_path w = HTTPException 404 <-> files w !! file_path = None).
Proof.
  unfold load_file.
  destruct (files w !! file_path) as [[| | j] |]; repeat split;
    try discriminate; intros; try injection H as <-; auto; try discriminate.
Qed.

(** X25. [load_indicators] lets no exception through but [HTTPException],
    with status 400, 404 or 500: 400 for every language but ['it'] and
    ['en'], whatever the files; 404 exactly when the language is one of
    the two and its file does not exist; the file of the other language
    is never looked at. *)
Theorem X25_load_indicators_status_codes :
  forall (language : string) (w : World),
    load_indicators language w <> Crashed /\
    (forall status_code,
        load_indicators language w = HTTPException status_code ->
        status_code = 400 \/ status_code = 404 \/ status_code = 500) /\
    (language <> "it" -> language <> "en" ->
     load_indicators language w = HTTPException 400) /\
    (load_indicators language w = HTTPException 404 <->
     (language = "it" /\ files w !! IT_FILE_PATH = None) \/
     (language = "en" /\ files w !! EN_FILE_PATH = None)).
Proof.
  intros language w. unfold load_indicators.
  destruct (String.eqb_spec language "it") as [-> | Hit].
  - destruct (load_file_status IT_FILE_PATH w) as (Hc & Hs & H404).
    split; [exact Hc |]. split; [intros sc H; right; exact (Hs sc H) |].
    split; [congruence |].
    rewrite H404. split; [auto |]. intros [[_ H] | [H _]]; [exact H | discriminate H].
  - destruct (String.eqb_spec language "en") as [-> | Hen].
    + destruct (load_file_status EN_FILE_PATH w) as (Hc & Hs & H404).
      split; [exact Hc |]. split; [intros sc H; right; exact (Hs sc H) |].
      split; [congruence |].
      rewrite H404. split; [auto |]. intros [[H _] | [_ H]]; [discriminate H | exact H].
    + split; [discriminate |].
      split; [intros sc H; injection H as <-; auto |].
      split; [reflexivity |].
      split; [discriminate |]. intros [[H _] | [H _]]; contradiction.
Qed.

Lemma descriptions_of_objects (objects : list (list (string * json))) :
  descriptions_of (List.map JObj objects) = Some (List.map description_of objects).
Proof.
  induction objects as [| members objects IH]; [reflexivity |].
  cbn [List.map descriptions_of]. now rewrite IH.
Qed.

Lemma descriptions_of_non_object (items : list json) :
  Exists (fun item => forall members, item <> JObj members) items ->
  descriptions_of items = None.
Proof.
  induction 1 as [item items Hbad | item items _ IH]; cbn [descriptions_of].
  - destruct item; try reflexivity. now contradiction (Hbad members).
  - rewrite IH. destruct item; reflexivity.
Qed.

(** X26. When the file of the language holds a list of objects,
    [get_indicators_descriptions] answers one dictionary per indicator,
    in order, with the keys id, nome and descrizione, and [None] for a
    field that the indicator lacks. When one element of the list is no
    object, the endpoint fails with an exception that nothing catches. *)
Theorem X26_get_indicators_descriptions :
  forall (language : string) (w : World) (items : list json),
    load_indicators language w = Answer (JArr items) ->
    (forall objects : list (list (string * json)),
        items = List.map JObj objects ->
        get_indicators_descriptions language w
          = Answer (List.map description_of objects)) /\
    (Exists (fun item => forall members, item <> JObj members) items ->
     get_indicators_descriptions language w = Crashed).
Proof.
  intros language w items Hload. unfold get_indicators_descriptions.
  rewrite Hload. cbn [py_iter]. split.
  - intros objects ->. now rewrite descriptions_of_objects.
  - intros Hbad. now rewrite (descriptions_of_non_object items Hbad).
Qed.

Lemma X26_witness :
  load_indicators "it" (descriptions_world (Some (Document (JArr [JObj gdp_indicator]))))
    = Answer (JArr [JObj gdp_indicator]) /\
  get_indicators_descriptions "it"
    (descriptions_world (Some (Document (JArr [JObj gdp_indicator]))))
    = Answer [JObj [("id", JStr "B1GQ"); ("nome", JStr "PIL"); ("descrizione", JNull)]].
Proof.
  split; [reflexivity |].
  exact (proj1 (X26_get_indicators_descriptions "it"
                  (descriptions_world (Some (Document (JArr [JObj gdp_indicator]))))
                  [JObj gdp_indicator] eq_refl)
               [gdp_indicator] eq_refl).
Defined.

(** X27. Of the five values that the request model admits for [data_id],
    four reach a getter and one, ['dividends_data'], raises [KeyError]:
    the getter of the dividends is registered as ['dividends_history'],
    which the request model does not admit, so no admitted request
    reaches it. *)
Theorem X27_dividends_cannot_be_requested :
  forall data_id : string,
    In data_id DATA_IDS ->
    (dispatch data_id = Raise (KeyError data_id) <-> data_id = "dividends_data") /\
    (data_id <> "dividends_data" -> exists getter, dispatch data_id = Return getter) /\
    dispatch data_id <> Return get_dividends.
Proof.
  intros data_id Hin. simpl in Hin.
  destruct Hin as [<- | [<- | [<- | [<- | [<- | []]]]]];
    (split; [split; [discriminate || reflexivity | discriminate || reflexivity] |]);
    (split; [intros H; try (now contradiction H); eexists; reflexivity | discriminate]).
Qed.

Lemma X27_witness :
  In "dividends_data" DATA_IDS /\
  dispatch "dividends_data" = Raise (KeyError "dividends_data").
Proof.
  split; [simpl; tauto |].
  apply (proj1 (X27_dividends_cannot_be_requested "dividends_data"
                  (or_intror (or_intror (or_intror (or_introl eq_refl)))))).
  reflexivity.
Defined.
